(** * TraefikEtcdProxy: the atomic route transaction protocol over etcd

    A shallow embedding of [jupyterhub_traefik_proxy/etcd.py].  Text and
    byte strings are 8-bit strings: a Python [str] is represented by its
    UTF-8 encoding, so that [str.encode] is the identity and
    [bytes.decode] is a well-formedness check.  The etcd server is a finite
    map from keys to values together with the list of requests it has
    received; every method of the class is a computation over that world
    which may raise. *)

From Stdlib Require Import String Ascii List NArith Bool Lia.
From stdpp Require Import base option list gmap strings fin_maps.

Local Open Scope string_scope.
Local Open Scope list_scope.
Local Open Scope N_scope.

(** ** Exceptions and results *)

Inductive exn : Type :=
  | UnicodeDecodeError   (* bytes.decode on bytes that are not UTF-8 *)
  | DecodeError          (* unescape on a segment that is not validly escaped *)
  | DuplicateKey.        (* etcd: "duplicate key given in txn request" *)

Inductive result (A : Type) : Type :=
  | Ok (a : A)
  | Raise (e : exn).
Arguments Ok {A} a.
Arguments Raise {A} e.

Definition result_map {A B} (f : A -> B) (r : result A) : result B :=
  match r with
  | Ok a => Ok (f a)
  | Raise e => Raise e
  end.

(** ** Python text primitives *)

Module Py.

(** [s.startswith(p)] *)
Fixpoint startswith (s p : string) {struct p} : bool :=
  match p, s with
  | EmptyString, _ => true
  | String _ _, EmptyString => false
  | String a p', String b s' => Ascii.eqb a b && startswith s' p'
  end.

(** [s[n:]] *)
Fixpoint drop (n : nat) (s : string) : string :=
  match n, s with
  | O, _ => s
  | S _, EmptyString => EmptyString
  | S n', String _ s' => drop n' s'
  end.

(** [s.replace(old, new, 1)]: the leftmost occurrence of [old] in [s] is
    replaced by [new]; [s] is returned as it is when [old] does not
    occur.  (An empty [old] occurs at position 0.) *)
Fixpoint replace1 (s old new : string) : string :=
  if startswith s old then new +:+ drop (String.length old) s
  else match s with
       | EmptyString => EmptyString
       | String c s' => String c (replace1 s' old new)
       end.

(** [sep.join(parts)] *)
Fixpoint join (sep : string) (parts : list string) : string :=
  match parts with
  | [] => EmptyString
  | [x] => x
  | x :: rest => x +:+ sep +:+ join sep rest
  end.

Definition in_range (c : ascii) (lo hi : N) : bool :=
  (lo <=? N_of_ascii c) && (N_of_ascii c <=? hi).

(** Well-formed UTF-8 byte sequences (Unicode, table 3-7): what
    [bytes.decode()] accepts. *)
Fixpoint utf8_valid (b : string) : bool :=
  match b with
  | EmptyString => true
  | String c0 r0 =>
    if in_range c0 0 127 then utf8_valid r0
    else
      match r0 with
      | EmptyString => false
      | String c1 r1 =>
        if in_range c0 194 223 then in_range c1 128 191 && utf8_valid r1
        else
          match r1 with
          | EmptyString => false
          | String c2 r2 =>
            if in_range c0 224 239 then
              (if in_range c0 224 224 then in_range c1 160 191
               else if in_range c0 237 237 then in_range c1 128 159
               else in_range c1 128 191)
              && in_range c2 128 191 && utf8_valid r2
            else
              match r2 with
              | EmptyString => false
              | String c3 r3 =>
                if in_range c0 240 244 then
                  (if in_range c0 240 240 then in_range c1 144 191
                   else if in_range c0 244 244 then in_range c1 128 143
                   else in_range c1 128 191)
                  && in_range c2 128 191 && in_range c3 128 191
                  && utf8_valid r3
                else false
              end
          end
      end
  end.

(** [b.decode()] (UTF-8, strict) *)
Definition decode (b : string) : result string :=
  if utf8_valid b then Ok b else Raise UnicodeDecodeError.

End Py.

(** ** The escaping library

    Modelled from the spec: the external [escapism] package, whose
    [escape] and [unescape] the class calls, is not part of the sources.
    The spec asks for a percent-style scheme over a fixed reserved
    character set whose escape character differs from the path separator,
    with an [unescape] that fails with [DecodeError] on a segment that is
    not validly escaped.  Safe characters are the ASCII letters and
    digits; every other byte becomes [%] followed by its two upper-case
    hexadecimal digits. *)

Module escapism.

Definition ESCAPE_CHAR : ascii := "%"%char.

Definition is_safe (c : ascii) : bool :=
  Py.in_range c 48 57 || Py.in_range c 65 90 || Py.in_range c 97 122.

Definition hex_digit (n : N) : ascii :=
  if n <? 10 then ascii_of_N (48 + n) else ascii_of_N (55 + n).

Definition hex_value (c : ascii) : option N :=
  if Py.in_range c 48 57 then Some (N_of_ascii c - 48)
  else if Py.in_range c 65 70 then Some (N_of_ascii c - 55)
  else if Py.in_range c 97 102 then Some (N_of_ascii c - 87)
  else None.

Definition _escape_char (c : ascii) : string :=
  String ESCAPE_CHAR
    (String (hex_digit (N_of_ascii c / 16))
       (String (hex_digit (N_of_ascii c mod 16)) EmptyString)).

Fixpoint escape (to_escape : string) : string :=
  match to_escape with
  | EmptyString => EmptyString
  | String c rest =>
    if is_safe c then String c (escape rest)
    else _escape_char c +:+ escape rest
  end.

Fixpoint unescape (escaped : string) : result string :=
  match escaped with
  | EmptyString => Ok EmptyString
  | String c rest =>
    if is_safe c then result_map (String c) (unescape rest)
    else if Ascii.eqb c ESCAPE_CHAR then
      match rest with
      | String h (String l rest') =>
        match hex_value h, hex_value l with
        | Some a, Some b =>
          result_map (String (ascii_of_N (16 * a + b))) (unescape rest')
        | _, _ => Raise DecodeError
        end
      | _ => Raise DecodeError
      end
    else Raise DecodeError
  end.

End escapism.

(** ** The etcd server, as seen through the [etcd3] client

    The store and its client library are external to the repository.  The
    model follows the backend contract the class relies on: single-key
    get, prefix range get, and a transaction that applies its puts and
    deletes together or not at all.  A transaction that names one key in
    two puts is taken to be refused as a whole, which is etcd's rule. *)

Module etcd3.

(** [client.transactions.put(key, value)] and
    [client.transactions.delete(key)] *)
Inductive op : Type :=
  | Put (key value : string)
  | Delete (key : string).

(** A guard of a transaction, [client.transactions.value(key) == value]. *)
Inductive compare : Type :=
  | ValueEq (key value : string).

Inductive response : Type :=
  | PutResponse
  | DeleteRangeResponse (deleted : N).

(** [get_prefix] yields pairs [(value, metadata)]; the key is a field of
    the metadata. *)
Record KVMetadata : Type := { key : string }.
Definition kv_entry : Type := string * KVMetadata.

(** The calls the server has received. *)
Inductive request : Type :=
  | ReqGet (key : string)
  | ReqGetPrefix (key_prefix : string)
  | ReqTransaction (compare : list compare) (success failure : list op).

Definition put_keys (ops : list op) : list string :=
  omap (fun o => match o with Put k _ => Some k | Delete _ => None end) ops.

Definition delete_keys (ops : list op) : list string :=
  omap (fun o => match o with Put _ _ => None | Delete k => Some k end) ops.

Definition mem (k : string) (l : list string) : bool :=
  existsb (String.eqb k) l.

Fixpoint distinct (l : list string) : bool :=
  match l with
  | [] => true
  | k :: rest => negb (mem k rest) && distinct rest
  end.

(** The server refuses a transaction that puts one key twice, or puts a
    key it also deletes ("duplicate key given in txn request"). *)
Definition txn_accepted (ops : list op) : bool :=
  distinct (put_keys ops)
  && forallb (fun k => negb (mem k (delete_keys ops))) (put_keys ops).

Definition apply_op (m : gmap string string) (o : op)
  : gmap string string * response :=
  match o with
  | Put k v => (<[k:=v]> m, PutResponse)
  | Delete k =>
    (delete k m,
     DeleteRangeResponse (match m !! k with Some _ => 1 | None => 0 end))
  end.

Fixpoint apply_ops (m : gmap string string) (ops : list op)
  : gmap string string * list response :=
  match ops with
  | [] => (m, [])
  | o :: rest =>
    let '(m1, r) := apply_op m o in
    let '(m2, rs) := apply_ops m1 rest in
    (m2, r :: rs)
  end.

Definition eval_compare (m : gmap string string) (c : compare) : bool :=
  match c with
  | ValueEq k v => bool_decide (m !! k = Some v)
  end.

(** [client.transaction(compare, success, failure)]: all of [success] is
    applied when every guard holds, all of [failure] otherwise; the
    answer is the flag and the responses. *)
Definition transaction (cmp : list compare) (success failure : list op)
    (m : gmap string string)
  : result (bool * list response) * gmap string string :=
  if txn_accepted success && txn_accepted failure then
    let succeeded := forallb (eval_compare m) cmp in
    let '(m', rs) := apply_ops m (if succeeded then success else failure) in
    (Ok (succeeded, rs), m')
  else (Raise DuplicateKey, m).

(** [client.get(key)]: the value, or [None]. *)
Definition get (k : string) (m : gmap string string) : option string :=
  m !! k.

(** [client.get_prefix(prefix)]: every stored pair whose key starts with
    [prefix]. *)
Definition get_prefix (p : string) (m : gmap string string)
  : list kv_entry :=
  (fun kv => (kv.2, {| key := kv.1 |}))
    <$> map_to_list (filter (fun kv => Py.startswith kv.1 p = true) m).

End etcd3.

(** ** Computations of the proxy

    The world of a proxy object is the contents of the etcd server, the
    requests the server has received, and the warnings written to the log.
    A raised exception leaves the world as it was when it was raised. *)

Record world : Type := World {
  kv : gmap string string;
  requests : list etcd3.request;
  warnings : list string
}.

Definition M (A : Type) : Type := world -> result A * world.

Definition ret {A} (a : A) : M A := fun w => (Ok a, w).

Definition bind {A B} (m : M A) (k : A -> M B) : M B :=
  fun w =>
    match m w with
    | (Ok a, w') => k a w'
    | (Raise e, w') => (Raise e, w')
    end.

Definition lift {A} (r : result A) : M A := fun w => (r, w).

Notation "'let*' x ':=' m 'in' k" := (bind m (fun x => k))
  (at level 10, x name, m at level 100, k at level 200, only parsing).
Notation "'let*' ' pat ':=' m 'in' k" :=
  (bind m (fun x => match x with pat => k end))
  (at level 10, pat pattern, m at level 100, k at level 200, only parsing).
Notation "'run' m 'in' k" := (bind m (fun _ => k))
  (at level 10, m at level 100, k at level 200, only parsing).

Fixpoint mapM {A B} (f : A -> M B) (l : list A) : M (list B) :=
  match l with
  | [] => ret []
  | x :: rest =>
    let* y := f x in
    let* ys := mapM f rest in
    ret (y :: ys)
  end.

(** [self.log.warning(msg)] *)
Definition log_warning (msg : string) : M unit :=
  fun w => (Ok tt, {| kv := kv w; requests := requests w;
                      warnings := warnings w ++ [msg] |}).

(** The keys of a route's router and service descriptors, supplied by the
    caller. *)
Record RouteKeys : Type := {
  service_url_path : string;
  router_service_path : string;
  service_alias : string;
  router_rule_path : string
}.

(** The configuration traits of the proxy object that the methods read. *)
Record TraefikEtcdProxy : Type := {
  kv_jupyterhub_prefix : string;
  kv_separator : string
}.

Section TraefikEtcdProxy.

Variable self : TraefikEtcdProxy.

Definition _etcd_transaction (success_actions : list etcd3.op)
  : M (bool * list etcd3.response) :=
  fun w =>
    let '(r, m') := etcd3.transaction [] success_actions [] (kv w) in
    (r, {| kv := m';
           requests := requests w
                       ++ [etcd3.ReqTransaction [] success_actions []];
           warnings := warnings w |}).

Definition _etcd_get (key : string) : M (option string) :=
  fun w =>
    (Ok (etcd3.get key (kv w)),
     {| kv := kv w;
        requests := requests w ++ [etcd3.ReqGet key];
        warnings := warnings w |}).

Definition _etcd_get_prefix (key_prefix : string)
  : M (list etcd3.kv_entry) :=
  fun w =>
    (Ok (etcd3.get_prefix key_prefix (kv w)),
     {| kv := kv w;
        requests := requests w ++ [etcd3.ReqGetPrefix key_prefix];
        warnings := warnings w |}).

Definition _kv_atomic_add_route_parts
    (jupyterhub_routespec target data : string)
    (route_keys : RouteKeys) (rule : string)
  : M (bool * list etcd3.response) :=
  let jupyterhub_target :=
    Py.join (kv_separator self)
      [kv_jupyterhub_prefix self; "targets"; escapism.escape target] in
  let success :=
    [ etcd3.Put jupyterhub_routespec target;
      etcd3.Put jupyterhub_target data;
      etcd3.Put (service_url_path route_keys) target;
      etcd3.Put (router_service_path route_keys) (service_alias route_keys);
      etcd3.Put (router_rule_path route_keys) rule ] in
  let* '(status, response) := _etcd_transaction success in
  ret (status, response).

Definition _kv_atomic_delete_route_parts
    (jupyterhub_routespec : string) (route_keys : RouteKeys)
  : M (bool * option (list etcd3.response)) :=
  let* value := _etcd_get jupyterhub_routespec in
  match value with
  | None =>
    run log_warning ("Route " +:+ jupyterhub_routespec
                     +:+ " doesn't exist. Nothing to delete") in
    ret (true, None)
  | Some value =>
    let* decoded := lift (Py.decode value) in
    let jupyterhub_target :=
      Py.join (kv_separator self)
        [kv_jupyterhub_prefix self; "targets"; escapism.escape decoded] in
    let success :=
      [ etcd3.Delete jupyterhub_routespec;
        etcd3.Delete jupyterhub_target;
        etcd3.Delete (service_url_path route_keys);
        etcd3.Delete (router_service_path route_keys);
        etcd3.Delete (router_rule_path route_keys) ] in
    let* '(status, response) := _etcd_transaction success in
    ret (status, Some response)
  end.

Definition _kv_get_target (jupyterhub_routespec : string)
  : M (option string) :=
  let* value := _etcd_get jupyterhub_routespec in
  match value with
  | None => ret None
  | Some value => let* decoded := lift (Py.decode value) in ret (Some decoded)
  end.

Definition _kv_get_data (target : string) : M (option string) :=
  let* value := _etcd_get target in
  match value with
  | None => ret None
  | Some value => ret (Some value)
  end.

Definition _kv_get_route_parts (kv_entry : etcd3.kv_entry)
  : M (string * string * option string) :=
  let* key := lift (Py.decode (etcd3.key (snd kv_entry))) in
  let* value := lift (Py.decode (fst kv_entry)) in
  let sep := kv_separator self in
  let route_prefix :=
    Py.join sep [kv_jupyterhub_prefix self; "routes" +:+ sep] in
  let target_prefix := Py.join sep [kv_jupyterhub_prefix self; "targets"] in
  let* routespec := lift (escapism.unescape (Py.replace1 key route_prefix "")) in
  let etcd_target := Py.join sep [target_prefix; escapism.escape value] in
  let* target := lift (escapism.unescape
                    (Py.replace1 etcd_target (target_prefix +:+ sep) "")) in
  let* data := _kv_get_data etcd_target in
  ret (routespec, target, data).

Definition _kv_get_jupyterhub_prefixed_entries
  : M (list etcd3.kv_entry) :=
  let sep := kv_separator self in
  let routespecs_prefix :=
    Py.join sep [kv_jupyterhub_prefix self; "routes" +:+ sep] in
  let* routes := _etcd_get_prefix routespecs_prefix in
  ret routes.

(** The flattening of the dynamic configuration under the traefik prefix
    is done by the base class; [data] stands for the items of the flat
    dict it returns, in their order. *)
Definition persist_dynamic_config (data : list (string * string))
  : M (bool * list etcd3.response) :=
  let transactions := (fun kv => etcd3.Put kv.1 kv.2) <$> data in
  let* '(status, response) := _etcd_transaction transactions in
  ret (status, response).

End TraefikEtcdProxy.

(** ** Keys computed by the caller

    Modelled from the spec: the base class [TKvProxy], which computes the
    keys it hands to the methods above, is not part of the sources.  The
    spec gives [routeKey = join(jupyterhubPrefix, "routes",
    escape(routespec))], [targetKey = join(jupyterhubPrefix, "targets",
    escape(target))] and [routesPrefix], the prefix covering all route
    keys. *)

Definition routeKey (self : TraefikEtcdProxy) (routespec : string) : string :=
  Py.join (kv_separator self)
    [kv_jupyterhub_prefix self; "routes"; escapism.escape routespec].

Definition targetKey (self : TraefikEtcdProxy) (target : string) : string :=
  Py.join (kv_separator self)
    [kv_jupyterhub_prefix self; "targets"; escapism.escape target].

Definition routesPrefix (self : TraefikEtcdProxy) : string :=
  Py.join (kv_separator self)
    [kv_jupyterhub_prefix self; "routes" +:+ kv_separator self].

(** Modelled from the spec: [listRoutes()] followed by [decodeRouteEntry]
    on each item, the loop of the base class over the entries of the
    range read. *)
Definition list_routes (self : TraefikEtcdProxy)
  : M (list (string * string * option string)) :=
  let* routes := _kv_get_jupyterhub_prefixed_entries self in
  mapM (_kv_get_route_parts self) routes.

(** The routespec and target of a decoded entry. *)
Definition route_of (x : string * string * option string) : string * string :=
  (x.1.1, x.1.2).

(** ** Histories of route operations

    A history is a sequence of calls made by the base class on a fresh
    store: routes added and deleted under their route keys, and the
    dynamic configuration persisted.  The route table it leaves is the map
    from the routespecs whose [addRoute] succeeded, and that were not
    deleted since, to their targets. *)

Inductive call : Type :=
  | AddRoute (routespec target data : string)
             (route_keys : RouteKeys) (rule : string)
  | DeleteRoute (routespec : string) (route_keys : RouteKeys)
  | PersistDynamicConfig (data : list (string * string)).

Definition succeeded {A} (r : result (bool * A)) : bool :=
  match r with
  | Ok (true, _) => true
  | _ => false
  end.

Definition step (self : TraefikEtcdProxy)
    (st : world * gmap string string) (c : call)
  : world * gmap string string :=
  match c with
  | AddRoute routespec target data route_keys rule =>
    let '(r, w') :=
      _kv_atomic_add_route_parts self (routeKey self routespec)
        target data route_keys rule st.1 in
    (w', if succeeded r then <[routespec:=target]> st.2 else st.2)
  | DeleteRoute routespec route_keys =>
    let '(r, w') :=
      _kv_atomic_delete_route_parts self (routeKey self routespec)
        route_keys st.1 in
    (w', if succeeded r then delete routespec st.2 else st.2)
  | PersistDynamicConfig data =>
    ((persist_dynamic_config data st.1).2, st.2)
  end.

Definition fresh : world := {| kv := ∅; requests := []; warnings := [] |}.

Definition run_history (self : TraefikEtcdProxy) (cs : list call)
  : world * gmap string string :=
  foldl (step self) (fresh, ∅) cs.

(** The descriptor keys of a call and the keys of the dynamic configuration
    lie outside the route namespace, and the target of an added route is
    text. *)
Definition descriptor_keys (rk : RouteKeys) : list string :=
  [service_url_path rk; router_service_path rk; router_rule_path rk].

Definition call_ok (self : TraefikEtcdProxy) (c : call) : Prop :=
  match c with
  | AddRoute _ target _ rk _ =>
    Py.utf8_valid target = true
    /\ Forall (fun k => Py.startswith k (routesPrefix self) = false)
         (descriptor_keys rk)
  | DeleteRoute _ rk =>
    Forall (fun k => Py.startswith k (routesPrefix self) = false)
      (descriptor_keys rk)
  | PersistDynamicConfig data =>
    Forall (fun k => Py.startswith k (routesPrefix self) = false) data.*1
  end.

Definition config_ok (self : TraefikEtcdProxy) : Prop :=
  Py.utf8_valid (kv_jupyterhub_prefix self) = true
  /\ Py.utf8_valid (kv_separator self) = true.

(** The store holds a route table: its entries under the routes prefix are
    the entries of the table at their route keys, and every target in the
    table is text. *)
Definition holds_table (self : TraefikEtcdProxy)
    (w : world) (table : gmap string string) : Prop :=
  filter (fun kv => Py.startswith kv.1 (routesPrefix self) = true) (kv w)
  = kmap (routeKey self) table
  /\ map_Forall (fun _ target => Py.utf8_valid target = true) table.

(** ** Readings of the specification that the methods are checked against *)

(** Decoding an entry whose key lies outside the route namespace raises
    [DecodeError]. *)
Definition foreign_key_rejected (self : TraefikEtcdProxy)
    (entry : etcd3.kv_entry) (w : world) : Prop :=
  Py.startswith (etcd3.key entry.2) (routesPrefix self) = false ->
  (_kv_get_route_parts self entry w).1 = Raise DecodeError.

(** After a successful add, the target is read back under the routespec key
    and the data under the target string itself. *)
Definition add_then_read (self : TraefikEtcdProxy)
    (spec target data : string) (rk : RouteKeys) (rule : string)
    (w : world) : Prop :=
  forall resp w',
    _kv_atomic_add_route_parts self spec target data rk rule w
    = (Ok (true, resp), w') ->
    (_kv_get_target spec w').1 = Ok (Some target)
    /\ (_kv_get_data target w').1 = Ok (Some data).

(** Deleting one of two routes that share a target keeps the data stored
    for the target. *)
Definition shared_target_kept (self : TraefikEtcdProxy)
    (spec1 spec2 target data : string) (rk : RouteKeys) (w : world) : Prop :=
  spec1 <> spec2 ->
  kv w !! spec1 = Some target ->
  kv w !! spec2 = Some target ->
  kv w !! targetKey self target = Some data ->
  forall resp w',
    _kv_atomic_delete_route_parts self spec1 rk w = (Ok (true, resp), w') ->
    (_kv_get_data (targetKey self target) w').1 = Ok (Some data).

(** ** A concrete deployment, for examples *)

Module Example.

Definition proxy : TraefikEtcdProxy :=
  {| kv_jupyterhub_prefix := "jupyterhub"; kv_separator := "/" |}.

Definition keys (name : string) : RouteKeys :=
  {| service_url_path :=
       "traefik/http/services/" +:+ name +:+ "/loadBalancer/servers/0/url";
     router_service_path := "traefik/http/routers/" +:+ name +:+ "/service";
     service_alias := name;
     router_rule_path := "traefik/http/routers/" +:+ name +:+ "/rule" |}.

Definition alice : string := "/user/alice/".
Definition bob : string := "/user/bob/".

(** Two routes to one target, added to a fresh store. *)
Definition shared : world :=
  (run_history proxy
     [ AddRoute alice "http://10.0.0.9:9000" "meta1" (keys "alice")
         "PathPrefix(`/user/alice/`)";
       AddRoute bob "http://10.0.0.9:9000" "meta1" (keys "bob")
         "PathPrefix(`/user/bob/`)" ]).1.

End Example.

(** * Properties *)

(** ** Text primitives *)

Section PyFacts.

Lemma str_app_cons c s t : String c s +:+ t = String c (s +:+ t).
Proof. reflexivity. Qed.

Lemma str_app_empty_l s : "" +:+ s = s.
Proof. reflexivity. Qed.

Lemma str_app_assoc s t u : (s +:+ t) +:+ u = s +:+ (t +:+ u).
Proof.
  induction s as [|c s IH]; [reflexivity|].
  rewrite !str_app_cons. by rewrite IH.
Qed.

Lemma startswith_app p s : Py.startswith (p +:+ s) p = true.
Proof.
  induction p as [|c p IH]; [reflexivity|].
  rewrite str_app_cons. simpl. rewrite IH.
  by rewrite Ascii.eqb_refl.
Qed.

Lemma startswith_common p a b :
  Py.startswith (p +:+ a) (p +:+ b) = Py.startswith a b.
Proof.
  induction p as [|c p IH]; [reflexivity|].
  rewrite !str_app_cons. simpl. by rewrite Ascii.eqb_refl, IH.
Qed.

Lemma startswith_spec s p :
  Py.startswith s p = true <-> exists r, s = p +:+ r.
Proof.
  split.
  - revert s. induction p as [|c p IH]; intros s Hs.
    + by exists s.
    + destruct s as [|b s]; [discriminate|].
      simpl in Hs. apply andb_prop in Hs as [Hc Hs].
      apply Ascii.eqb_eq in Hc as ->.
      destruct (IH _ Hs) as [r ->]. by exists r.
  - intros [r ->]. apply startswith_app.
Qed.

Lemma drop_app p s : Py.drop (String.length p) (p +:+ s) = s.
Proof. induction p as [|c p IH]; [by destruct s|]. by rewrite str_app_cons. Qed.

Lemma replace1_unfold s old new :
  Py.replace1 s old new =
  if Py.startswith s old then new +:+ Py.drop (String.length old) s
  else match s with
       | EmptyString => EmptyString
       | String c s' => String c (Py.replace1 s' old new)
       end.
Proof. by destruct s. Qed.

(** Removing a prefix that is there leaves the rest. *)
Lemma replace1_prefix p s : Py.replace1 (p +:+ s) p "" = s.
Proof.
  rewrite replace1_unfold, startswith_app, drop_app. reflexivity.
Qed.

Lemma join2 sep a b : Py.join sep [a; b] = a +:+ sep +:+ b.
Proof. reflexivity. Qed.

Lemma join3 sep a b c : Py.join sep [a; b; c] = a +:+ sep +:+ b +:+ sep +:+ c.
Proof. reflexivity. Qed.

Lemma ascii_head c s :
  Py.in_range c 0 127 = true -> Py.utf8_valid (String c s) = Py.utf8_valid s.
Proof. intros Hc. simpl. by rewrite Hc. Qed.

(** Well-formed UTF-8 is closed under concatenation. *)
Lemma utf8_valid_app a b :
  Py.utf8_valid a = true -> Py.utf8_valid b = true ->
  Py.utf8_valid (a +:+ b) = true.
Proof.
  intros Ha Hb.
  remember (String.length a) as n eqn:Hn.
  revert a Ha Hn. induction n as [n IH] using lt_wf_ind. intros a Ha Hn.
  assert (Hrec : forall r, Py.utf8_valid r = true ->
                   (String.length r < n)%nat ->
                   Py.utf8_valid (r +:+ b) = true)
    by (intros r Hr Hlt; eapply IH; [exact Hlt | exact Hr | reflexivity]).
  clear IH. subst n.
  destruct a as [|c0 r0]; [exact Hb|].
  rewrite str_app_cons. simpl in Ha |- *.
  destruct (Py.in_range c0 0 127).
  { apply Hrec; [exact Ha | simpl; lia]. }
  destruct r0 as [|c1 r1]; [discriminate|].
  rewrite str_app_cons. simpl in Ha |- *.
  destruct (Py.in_range c0 194 223).
  { apply andb_prop in Ha as [H1 Hr]. rewrite H1. simpl.
    apply Hrec; [exact Hr | simpl; lia]. }
  destruct r1 as [|c2 r2]; [discriminate|].
  rewrite str_app_cons. simpl in Ha |- *.
  destruct (Py.in_range c0 224 239).
  { apply andb_prop in Ha as [H12 Hr]. rewrite H12. simpl.
    apply Hrec; [exact Hr | simpl; lia]. }
  destruct r2 as [|c3 r3]; [discriminate|].
  rewrite str_app_cons. simpl in Ha |- *.
  destruct (Py.in_range c0 240 244); [|discriminate].
  apply andb_prop in Ha as [H123 Hr]. rewrite H123. simpl.
  apply Hrec; [exact Hr | simpl; lia].
Qed.

End PyFacts.

(** ** The escaping scheme *)

Section EscapismFacts.

Ltac each_byte c := destruct c as [[] [] [] [] [] [] [] []].

Lemma unescape_escape_char c s :
  escapism.unescape (escapism._escape_char c +:+ s)
  = result_map (String c) (escapism.unescape s).
Proof. each_byte c; reflexivity. Qed.

Lemma unescape_escape s : escapism.unescape (escapism.escape s) = Ok s.
Proof.
  induction s as [|c s IH]; [reflexivity|].
  simpl. destruct (escapism.is_safe c) eqn:Hc.
  - simpl. by rewrite Hc, IH.
  - by rewrite unescape_escape_char, IH.
Qed.

Lemma escape_inj s1 s2 : escapism.escape s1 = escapism.escape s2 -> s1 = s2.
Proof.
  intros Heq.
  assert (H : @Ok string s1 = Ok s2)
    by (rewrite <- (unescape_escape s1), Heq; apply unescape_escape).
  by injection H.
Qed.

Lemma hex_digits_safe c :
  escapism.is_safe (escapism.hex_digit (N_of_ascii c / 16)) = true
  /\ escapism.is_safe (escapism.hex_digit (N_of_ascii c mod 16)) = true.
Proof. each_byte c; split; reflexivity. Qed.

Lemma is_safe_ascii c :
  escapism.is_safe c = true -> Py.in_range c 0 127 = true.
Proof. each_byte c; intros H; first [reflexivity | discriminate H]. Qed.

(** An escaped segment is made of safe characters and the escape
    character only. *)
Lemma escape_alphabet s c :
  In c (list_ascii_of_string (escapism.escape s)) ->
  escapism.is_safe c = true \/ c = escapism.ESCAPE_CHAR.
Proof.
  induction s as [|a s IH]; simpl; [tauto|].
  destruct (escapism.is_safe a) eqn:Ha; simpl.
  - intros [<- | Hin]; auto.
  - destruct (hex_digits_safe a) as [Hh Hl].
    intros [<- | [<- | [<- | Hin]]]; auto.
Qed.

Lemma utf8_valid_escape_char c s :
  Py.utf8_valid (escapism._escape_char c +:+ s) = Py.utf8_valid s.
Proof. each_byte c; reflexivity. Qed.

Lemma utf8_valid_escape s : Py.utf8_valid (escapism.escape s) = true.
Proof.
  induction s as [|c s IH]; [reflexivity|].
  simpl. destruct (escapism.is_safe c) eqn:Hc.
  - by rewrite ascii_head by (by apply is_safe_ascii).
  - by rewrite utf8_valid_escape_char.
Qed.

End EscapismFacts.

(** ** The etcd transaction *)

Section Etcd3Facts.

Lemma mem_spec k l : etcd3.mem k l = true <-> k ∈ l.
Proof.
  unfold etcd3.mem. rewrite existsb_exists. split.
  - intros (x & Hin & Heq). apply String.eqb_eq in Heq as ->.
    by apply list_elem_of_In.
  - intros Hin. exists k. split; [by apply list_elem_of_In|].
    apply String.eqb_refl.
Qed.

Lemma distinct_spec l : etcd3.distinct l = true <-> NoDup l.
Proof.
  induction l as [|k l IH]; simpl.
  - split; [constructor | done].
  - rewrite NoDup_cons, andb_true_iff, negb_true_iff, IH.
    rewrite <- not_true_iff_false, mem_spec. tauto.
Qed.

(** A transaction of deletes only is never refused. *)
Lemma txn_accepted_deletes ops :
  etcd3.put_keys ops = [] -> etcd3.txn_accepted ops = true.
Proof. unfold etcd3.txn_accepted. by intros ->. Qed.

End Etcd3Facts.

(** ** The methods, as equations *)

Section MethodFacts.

Variable self : TraefikEtcdProxy.

(** The five puts of [_kv_atomic_add_route_parts]. *)
Lemma add_route_eq spec target data rk rule w :
  let puts :=
    [ etcd3.Put spec target;
      etcd3.Put (targetKey self target) data;
      etcd3.Put (service_url_path rk) target;
      etcd3.Put (router_service_path rk) (service_alias rk);
      etcd3.Put (router_rule_path rk) rule ] in
  _kv_atomic_add_route_parts self spec target data rk rule w =
  if etcd3.txn_accepted puts then
    (Ok (true, [ etcd3.PutResponse; etcd3.PutResponse; etcd3.PutResponse;
                 etcd3.PutResponse; etcd3.PutResponse ]),
     {| kv := <[router_rule_path rk := rule]>
                (<[router_service_path rk := service_alias rk]>
                   (<[service_url_path rk := target]>
                      (<[targetKey self target := data]>
                         (<[spec := target]> (kv w)))));
        requests := requests w ++ [etcd3.ReqTransaction [] puts []];
        warnings := warnings w |})
  else
    (Raise DuplicateKey,
     {| kv := kv w;
        requests := requests w ++ [etcd3.ReqTransaction [] puts []];
        warnings := warnings w |}).
Proof.
  intros puts.
  unfold _kv_atomic_add_route_parts, bind, _etcd_transaction,
    etcd3.transaction.
  fold (targetKey self target). fold puts.
  change (etcd3.txn_accepted []) with true. rewrite andb_true_r.
  destruct (etcd3.txn_accepted puts); reflexivity.
Qed.

(** An accepted add names five different keys. *)
Lemma add_route_accepted spec target data rk rule :
  etcd3.txn_accepted
    [ etcd3.Put spec target;
      etcd3.Put (targetKey self target) data;
      etcd3.Put (service_url_path rk) target;
      etcd3.Put (router_service_path rk) (service_alias rk);
      etcd3.Put (router_rule_path rk) rule ] = true
  <-> NoDup [ spec; targetKey self target; service_url_path rk;
              router_service_path rk; router_rule_path rk ].
Proof.
  unfold etcd3.txn_accepted.
  change (etcd3.delete_keys _) with (@nil string).
  change (etcd3.put_keys _)
    with [ spec; targetKey self target; service_url_path rk;
           router_service_path rk; router_rule_path rk ].
  rewrite andb_true_iff, distinct_spec. simpl. tauto.
Qed.

Lemma delete_route_absent spec rk w :
  kv w !! spec = None ->
  _kv_atomic_delete_route_parts self spec rk w =
  (Ok (true, None),
   {| kv := kv w;
      requests := requests w ++ [etcd3.ReqGet spec];
      warnings := warnings w
                  ++ ["Route " +:+ spec
                      +:+ " doesn't exist. Nothing to delete"] |}).
Proof.
  intros Hnone.
  unfold _kv_atomic_delete_route_parts, bind, _etcd_get, etcd3.get.
  rewrite Hnone. reflexivity.
Qed.

Lemma delete_route_present spec rk w value :
  kv w !! spec = Some value ->
  Py.utf8_valid value = true ->
  let deletes :=
    [ etcd3.Delete spec;
      etcd3.Delete (targetKey self value);
      etcd3.Delete (service_url_path rk);
      etcd3.Delete (router_service_path rk);
      etcd3.Delete (router_rule_path rk) ] in
  _kv_atomic_delete_route_parts self spec rk w =
  (Ok (true, Some (etcd3.apply_ops (kv w) deletes).2),
   {| kv := delete (router_rule_path rk)
              (delete (router_service_path rk)
                 (delete (service_url_path rk)
                    (delete (targetKey self value)
                       (delete spec (kv w)))));
      requests := requests w
                  ++ [etcd3.ReqGet spec]
                  ++ [etcd3.ReqTransaction [] deletes []];
      warnings := warnings w |}).
Proof.
  intros Hsome Hvalid deletes.
  unfold _kv_atomic_delete_route_parts, bind, _etcd_get, etcd3.get, lift,
    Py.decode.
  rewrite Hsome, Hvalid.
  unfold _etcd_transaction, etcd3.transaction.
  fold (targetKey self value). fold deletes. simpl.
  by rewrite <- app_assoc.
Qed.

Lemma delete_route_undecodable spec rk w value :
  kv w !! spec = Some value ->
  Py.utf8_valid value = false ->
  _kv_atomic_delete_route_parts self spec rk w =
  (Raise UnicodeDecodeError,
   {| kv := kv w;
      requests := requests w ++ [etcd3.ReqGet spec];
      warnings := warnings w |}).
Proof.
  intros Hsome Hvalid.
  unfold _kv_atomic_delete_route_parts, bind, _etcd_get, etcd3.get, lift,
    Py.decode.
  by rewrite Hsome, Hvalid.
Qed.

Lemma get_target_eq spec w :
  _kv_get_target spec w =
  (match kv w !! spec with
   | None => Ok None
   | Some value =>
     if Py.utf8_valid value then Ok (Some value)
     else Raise UnicodeDecodeError
   end,
   {| kv := kv w;
      requests := requests w ++ [etcd3.ReqGet spec];
      warnings := warnings w |}).
Proof.
  unfold _kv_get_target, bind, _etcd_get, etcd3.get, lift, Py.decode.
  destruct (kv w !! spec) as [value|]; [|reflexivity].
  by destruct (Py.utf8_valid value).
Qed.

Lemma get_data_eq key w :
  _kv_get_data key w =
  (Ok (kv w !! key),
   {| kv := kv w;
      requests := requests w ++ [etcd3.ReqGet key];
      warnings := warnings w |}).
Proof.
  unfold _kv_get_data, bind, _etcd_get, etcd3.get.
  by destruct (kv w !! key).
Qed.

Lemma etcd_target_eq value :
  Py.join (kv_separator self)
    [Py.join (kv_separator self) [kv_jupyterhub_prefix self; "targets"];
     escapism.escape value]
  = targetKey self value.
Proof.
  unfold targetKey. rewrite join3, !join2. by rewrite !str_app_assoc.
Qed.

Lemma target_prefix_stripped value :
  Py.replace1 (targetKey self value)
    (Py.join (kv_separator self) [kv_jupyterhub_prefix self; "targets"]
     +:+ kv_separator self) ""
  = escapism.escape value.
Proof.
  unfold targetKey. rewrite join3, join2.
  rewrite <- (replace1_prefix
                ((kv_jupyterhub_prefix self +:+ kv_separator self
                  +:+ "targets") +:+ kv_separator self)
                (escapism.escape value)) at 2.
  by rewrite !str_app_assoc.
Qed.

(** [_kv_get_route_parts] on an entry whose key and value are text: the
    only step that can fail is the unescaping of the key. *)
Lemma get_route_parts_eq value key w :
  Py.utf8_valid key = true ->
  Py.utf8_valid value = true ->
  _kv_get_route_parts self (value, {| etcd3.key := key |}) w =
  match escapism.unescape (Py.replace1 key (routesPrefix self) "") with
  | Ok routespec =>
    (Ok (routespec, value, kv w !! targetKey self value),
     {| kv := kv w;
        requests := requests w ++ [etcd3.ReqGet (targetKey self value)];
        warnings := warnings w |})
  | Raise e => (Raise e, w)
  end.
Proof.
  intros Hkey Hvalue.
  unfold _kv_get_route_parts, bind, lift, Py.decode.
  cbn [fst snd etcd3.key].
  rewrite Hkey, Hvalue. fold (routesPrefix self).
  destruct (escapism.unescape (Py.replace1 key (routesPrefix self) ""))
    as [routespec|e]; [|reflexivity].
  rewrite etcd_target_eq, target_prefix_stripped, unescape_escape.
  by rewrite get_data_eq.
Qed.

End MethodFacts.


(** * The claims *)

(** C1. Escaping round-trips: for every string [s], also one that contains
    the key separator [/], [unescape (escape s)] returns [s]; [escape] is
    injective, its segments contain no [/], and on the segments it produces
    [unescape] is its inverse on both sides. *)
Theorem escape_roundtrip :
  (forall s, escapism.unescape (escapism.escape s) = Ok s)
  /\ (forall s1 s2, escapism.escape s1 = escapism.escape s2 -> s1 = s2)
  /\ (forall s, ~ In "/"%char (list_ascii_of_string (escapism.escape s)))
  /\ (forall seg s, seg = escapism.escape s ->
        result_map escapism.escape (escapism.unescape seg) = Ok seg).
Proof.
  split; [exact unescape_escape|].
  split; [exact escape_inj|].
  split.
  - intros s Hin. apply escape_alphabet in Hin as [Hsafe | Heq];
      [discriminate Hsafe | discriminate Heq].
  - intros seg s ->. by rewrite unescape_escape.
Qed.

Lemma escape_roundtrip_witness :
  escapism.unescape (escapism.escape "host.tld/path/") = Ok "host.tld/path/"
  /\ "/a/" = "/a/"
  /\ ~ In "/"%char (list_ascii_of_string (escapism.escape "/user/alice/"))
  /\ result_map escapism.escape (escapism.unescape "%2Fa%2F") = Ok "%2Fa%2F".
Proof.
  destruct escape_roundtrip as (Hrt & Hinj & Hsep & Hinv).
  split; [apply Hrt|].
  split; [apply Hinj; reflexivity|].
  split; [apply Hsep|].
  apply (Hinv "%2Fa%2F" "/a/"). reflexivity.
Defined.

(** C2, as stated, fails: the key ["foo"] does not start with the routes
    prefix, and the entry is decoded to a triple all the same. *)
Lemma foreign_key_decoded :
  Py.startswith "foo" (routesPrefix Example.proxy) = false
  /\ (_kv_get_route_parts Example.proxy
        ("http://10.0.0.5:8888", {| etcd3.key := "foo" |}) fresh).1
     = Ok ("foo", "http://10.0.0.5:8888", None)
  /\ ~ foreign_key_rejected Example.proxy
         ("http://10.0.0.5:8888", {| etcd3.key := "foo" |}) fresh.
Proof.
  split; [reflexivity|]. split; [reflexivity|].
  intros H. specialize (H eq_refl). vm_compute in H. discriminate H.
Qed.

(** C2, amended. [_kv_get_route_parts] makes no prefix check.  For an entry
    whose key does not start with the routes prefix, the leftmost
    occurrence of the prefix inside the key, if there is one, is removed
    and the rest is unescaped: the call raises [DecodeError] only when that
    unescaping does, and otherwise returns the unescaped text as routespec
    together with the value and the data stored under the value's target
    key. *)
Theorem decode_without_prefix_check self value key w :
  Py.utf8_valid key = true ->
  Py.utf8_valid value = true ->
  Py.startswith key (routesPrefix self) = false ->
  (_kv_get_route_parts self (value, {| etcd3.key := key |}) w).1 =
  match escapism.unescape (Py.replace1 key (routesPrefix self) "") with
  | Ok routespec => Ok (routespec, value, kv w !! targetKey self value)
  | Raise e => Raise e
  end.
Proof.
  intros Hkey Hvalue _. rewrite get_route_parts_eq by assumption.
  by destruct (escapism.unescape _).
Qed.

Lemma decode_without_prefix_check_witness :
  (_kv_get_route_parts Example.proxy
     ("http://10.0.0.5:8888", {| etcd3.key := "xjupyterhub/routes/%2Fa" |})
     fresh).1
  = Ok ("x/a", "http://10.0.0.5:8888", None).
Proof.
  exact (decode_without_prefix_check Example.proxy "http://10.0.0.5:8888"
           "xjupyterhub/routes/%2Fa" fresh eq_refl eq_refl eq_refl).
Defined.

(** C3. [_kv_atomic_add_route_parts] sends the server one request, a
    transaction with no guard and no failure branch whose success branch
    is the five puts: routespec to target, target key to data,
    [service_url_path] to target, [router_service_path] to
    [service_alias], [router_rule_path] to rule.  With the separator [/]
    the target key reads [<jupyterhubPrefix>/targets/<escape(target)>]. *)
Theorem add_route_submits_five_puts self spec target data rk rule w :
  requests (_kv_atomic_add_route_parts self spec target data rk rule w).2
  = requests w
    ++ [ etcd3.ReqTransaction []
           [ etcd3.Put spec target;
             etcd3.Put
               (Py.join (kv_separator self)
                  [kv_jupyterhub_prefix self; "targets";
                   escapism.escape target])
               data;
             etcd3.Put (service_url_path rk) target;
             etcd3.Put (router_service_path rk) (service_alias rk);
             etcd3.Put (router_rule_path rk) rule ]
           [] ]
  /\ (kv_separator self = "/" ->
      Py.join (kv_separator self)
        [kv_jupyterhub_prefix self; "targets"; escapism.escape target]
      = kv_jupyterhub_prefix self +:+ "/targets/" +:+ escapism.escape target).
Proof.
  split.
  - rewrite add_route_eq. by destruct (etcd3.txn_accepted _).
  - intros ->. reflexivity.
Qed.

Lemma add_route_submits_five_puts_witness :
  Py.join "/" ["jupyterhub"; "targets"; escapism.escape "http://h:1"]
  = "jupyterhub/targets/http%3A%2F%2Fh%3A1".
Proof.
  exact (proj2 (add_route_submits_five_puts Example.proxy
                  "jupyterhub/routes/%2Fa%2F" "http://h:1" "meta"
                  (Example.keys "a") "PathPrefix(`/a/`)" fresh)
           eq_refl).
Defined.

(** C4. When the routespec key is absent, [_kv_atomic_delete_route_parts]
    returns [(True, None)]; the single read is the only request the server
    receives, no transaction is submitted, and the contents of the store
    are unchanged. *)
Theorem delete_absent_is_noop self spec rk w :
  kv w !! spec = None ->
  exists w',
    _kv_atomic_delete_route_parts self spec rk w = (Ok (true, None), w')
    /\ kv w' = kv w
    /\ requests w' = requests w ++ [etcd3.ReqGet spec].
Proof.
  intros Hnone. eexists. split; [by apply delete_route_absent|].
  split; reflexivity.
Qed.

Lemma delete_absent_is_noop_witness :
  exists w',
    _kv_atomic_delete_route_parts Example.proxy "jupyterhub/routes/%2Fa%2F"
      (Example.keys "a") Example.shared = (Ok (true, None), w')
    /\ kv w' = kv Example.shared
    /\ requests w'
       = requests Example.shared ++ [etcd3.ReqGet "jupyterhub/routes/%2Fa%2F"].
Proof.
  apply (delete_absent_is_noop Example.proxy "jupyterhub/routes/%2Fa%2F"
           (Example.keys "a") Example.shared).
  vm_compute. reflexivity.
Defined.

(** C5, as stated, fails: after the route for [/user/alice/] has been
    added, [_kv_get_data] called with the target string itself finds
    nothing, because the data is stored under the target key. *)
Lemma data_not_under_raw_target :
  ~ add_then_read Example.proxy "jupyterhub/routes/%2Fuser%2Falice%2F"
      "http://10.0.0.5:8888" "meta1" (Example.keys "alice")
      "PathPrefix(`/user/alice/`)" fresh.
Proof.
  intros H.
  destruct (_kv_atomic_add_route_parts Example.proxy
              "jupyterhub/routes/%2Fuser%2Falice%2F" "http://10.0.0.5:8888"
              "meta1" (Example.keys "alice") "PathPrefix(`/user/alice/`)"
              fresh) as [r w'] eqn:Hadd.
  vm_compute in Hadd. injection Hadd as <- <-.
  destruct (H _ _ eq_refl) as [_ Hdata].
  vm_compute in Hdata. discriminate Hdata.
Qed.

(** C5, amended.  After [_kv_atomic_add_route_parts spec target data keys
    rule] has succeeded, for a target that is text, and with no mutation
    in between, [_kv_get_target spec] returns the target and [_kv_get_data]
    called with the target key [<jupyterhubPrefix>/targets/<escape(target)>]
    returns the data. *)
Theorem add_then_read_by_key self spec target data rk rule w resp w' :
  _kv_atomic_add_route_parts self spec target data rk rule w
  = (Ok (true, resp), w') ->
  Py.utf8_valid target = true ->
  (_kv_get_target spec w').1 = Ok (Some target)
  /\ (_kv_get_data (targetKey self target) w').1 = Ok (Some data).
Proof.
  intros Hadd Htext. rewrite add_route_eq in Hadd.
  destruct (etcd3.txn_accepted _) eqn:Hacc; [|discriminate Hadd].
  apply add_route_accepted in Hacc.
  rewrite !NoDup_cons, !not_elem_of_cons in Hacc.
  destruct Hacc as ((? & ? & ? & ? & _) & (? & ? & ? & _) & _).
  injection Hadd as _ <-.
  rewrite get_target_eq, get_data_eq. cbn [fst kv]. split.
  - rewrite !lookup_insert_ne, lookup_insert_eq by done. by rewrite Htext.
  - by rewrite !lookup_insert_ne, lookup_insert_eq by done.
Qed.

Lemma add_then_read_by_key_witness :
  (_kv_get_target "jupyterhub/routes/%2Fuser%2Falice%2F"
     (_kv_atomic_add_route_parts Example.proxy
        "jupyterhub/routes/%2Fuser%2Falice%2F" "http://10.0.0.5:8888"
        "meta1" (Example.keys "alice") "PathPrefix(`/user/alice/`)"
        fresh).2).1
  = Ok (Some "http://10.0.0.5:8888")
  /\ (_kv_get_data (targetKey Example.proxy "http://10.0.0.5:8888")
        (_kv_atomic_add_route_parts Example.proxy
           "jupyterhub/routes/%2Fuser%2Falice%2F" "http://10.0.0.5:8888"
           "meta1" (Example.keys "alice") "PathPrefix(`/user/alice/`)"
           fresh).2).1
     = Ok (Some "meta1").
Proof.
  apply (add_then_read_by_key Example.proxy
           "jupyterhub/routes/%2Fuser%2Falice%2F" "http://10.0.0.5:8888"
           "meta1" (Example.keys "alice") "PathPrefix(`/user/alice/`)" fresh
           [ etcd3.PutResponse; etcd3.PutResponse; etcd3.PutResponse;
             etcd3.PutResponse; etcd3.PutResponse ]).
  - vm_compute. reflexivity.
  - reflexivity.
Defined.

(** C6. After [_kv_atomic_delete_route_parts spec keys] has succeeded, with
    no mutation in between, [_kv_get_target spec] returns [None].  When the
    route is there, the call reads the routespec key and then submits one
    transaction of five deletes: the routespec key, the data key of the
    stored target, and the three descriptor keys, which are the keys of
    the five puts of [_kv_atomic_add_route_parts] for that routespec and
    target. *)
Theorem delete_then_get_target self spec rk w :
  (forall resp w',
      _kv_atomic_delete_route_parts self spec rk w = (Ok (true, resp), w') ->
      (_kv_get_target spec w').1 = Ok None)
  /\ (forall value,
         kv w !! spec = Some value ->
         Py.utf8_valid value = true ->
         exists resp w' deletes,
           _kv_atomic_delete_route_parts self spec rk w
           = (Ok (true, Some resp), w')
           /\ requests w'
              = requests w
                ++ [etcd3.ReqGet spec; etcd3.ReqTransaction [] deletes []]
           /\ deletes
              = [ etcd3.Delete spec;
                  etcd3.Delete (targetKey self value);
                  etcd3.Delete (service_url_path rk);
                  etcd3.Delete (router_service_path rk);
                  etcd3.Delete (router_rule_path rk) ]
           /\ forall data rule w0,
               exists puts,
                 requests (_kv_atomic_add_route_parts self spec value data
                             rk rule w0).2
                 = requests w0 ++ [etcd3.ReqTransaction [] puts []]
                 /\ etcd3.put_keys puts = etcd3.delete_keys deletes).
Proof.
  split.
  - intros resp w' Hdel.
    destruct (kv w !! spec) as [value|] eqn:Hlook.
    + destruct (Py.utf8_valid value) eqn:Htext.
      * rewrite (delete_route_present _ _ _ _ _ Hlook Htext) in Hdel.
        injection Hdel as _ <-.
        rewrite get_target_eq. cbn [fst kv].
        rewrite !lookup_delete. repeat case_decide; done.
      * rewrite (delete_route_undecodable _ _ _ _ _ Hlook Htext) in Hdel.
        discriminate Hdel.
    + rewrite (delete_route_absent _ _ _ _ Hlook) in Hdel.
      injection Hdel as _ <-.
      rewrite get_target_eq. cbn [fst kv]. by rewrite Hlook.
  - intros value Hlook Htext.
    eexists _, _, _. split; [by apply delete_route_present|].
    split; [reflexivity|]. split; [reflexivity|].
    intros data rule w0. eexists.
    split; [rewrite add_route_eq; by destruct (etcd3.txn_accepted _)|].
    reflexivity.
Qed.

Lemma delete_then_get_target_witness :
  (_kv_get_target "jupyterhub/routes/%2Fuser%2Falice%2F"
     (_kv_atomic_delete_route_parts Example.proxy
        "jupyterhub/routes/%2Fuser%2Falice%2F" (Example.keys "alice")
        Example.shared).2).1
  = Ok None.
Proof.
  refine (proj1 (delete_then_get_target Example.proxy
                   "jupyterhub/routes/%2Fuser%2Falice%2F"
                   (Example.keys "alice") Example.shared)
            (Some [ etcd3.DeleteRangeResponse 1; etcd3.DeleteRangeResponse 1;
                    etcd3.DeleteRangeResponse 1; etcd3.DeleteRangeResponse 1;
                    etcd3.DeleteRangeResponse 1 ])
            _ _).
  vm_compute. reflexivity.
Defined.

(** C7. [_kv_atomic_add_route_parts] is idempotent on the contents of the
    store: from any state, two calls in succession with the same arguments
    leave the same keys and values as one call. *)
Theorem add_route_idempotent self spec target data rk rule w :
  let once :=
    (_kv_atomic_add_route_parts self spec target data rk rule w).2 in
  let twice :=
    (_kv_atomic_add_route_parts self spec target data rk rule once).2 in
  kv twice = kv once.
Proof.
  cbv zeta. rewrite !add_route_eq.
  destruct (etcd3.txn_accepted _); [|reflexivity].
  cbn [snd kv]. apply map_eq. intros i.
  rewrite !lookup_insert. repeat case_decide; reflexivity.
Qed.

(** C8, as stated, fails: with the routes of alice and bob added to one
    target, deleting alice's route removes the data stored for the target
    although bob's route still maps to it. *)
Lemma shared_target_data_removed :
  ~ shared_target_kept Example.proxy
      "jupyterhub/routes/%2Fuser%2Falice%2F"
      "jupyterhub/routes/%2Fuser%2Fbob%2F"
      "http://10.0.0.9:9000" "meta1" (Example.keys "alice") Example.shared.
Proof.
  intros H.
  destruct (_kv_atomic_delete_route_parts Example.proxy
              "jupyterhub/routes/%2Fuser%2Falice%2F" (Example.keys "alice")
              Example.shared) as [r w'] eqn:Hdel.
  vm_compute in Hdel. injection Hdel as <- <-.
  assert (Hne : "jupyterhub/routes/%2Fuser%2Falice%2F"
                <> "jupyterhub/routes/%2Fuser%2Fbob%2F") by discriminate.
  specialize (H Hne).
  assert (Hdata : forall P : Prop,
             (kv Example.shared !! "jupyterhub/routes/%2Fuser%2Falice%2F"
              = Some "http://10.0.0.9:9000" ->
              kv Example.shared !! "jupyterhub/routes/%2Fuser%2Fbob%2F"
              = Some "http://10.0.0.9:9000" ->
              kv Example.shared
                 !! targetKey Example.proxy "http://10.0.0.9:9000"
              = Some "meta1" -> P) -> P).
  { intros P HP. apply HP; vm_compute; reflexivity. }
  apply Hdata. intros H1 H2 H3.
  specialize (H H1 H2 H3 _ _ eq_refl).
  vm_compute in H. discriminate H.
Qed.

(** C8, amended.  [_kv_atomic_delete_route_parts] deletes the data key of
    the stored target unconditionally.  For two routes with distinct
    routespec keys that share a target, after the delete of one of them
    has succeeded [_kv_get_data] on the target key
    [<jupyterhubPrefix>/targets/<escape(target)>] returns [None], while
    the entry of the other route still maps to the target (its key being
    none of the keys the delete names). *)
Theorem delete_removes_shared_target_data
    self spec1 spec2 target data rk w :
  spec1 <> spec2 ->
  kv w !! spec1 = Some target ->
  kv w !! spec2 = Some target ->
  kv w !! targetKey self target = Some data ->
  Py.utf8_valid target = true ->
  spec2 ∉ targetKey self target :: descriptor_keys rk ->
  exists resp w',
    _kv_atomic_delete_route_parts self spec1 rk w = (Ok (true, resp), w')
    /\ (_kv_get_data (targetKey self target) w').1 = Ok None
    /\ (_kv_get_target spec2 w').1 = Ok (Some target).
Proof.
  intros Hne H1 H2 _ Htext Hout.
  unfold descriptor_keys in Hout. rewrite !not_elem_of_cons in Hout.
  destruct Hout as (? & ? & ? & ? & _).
  eexists _, _. split; [by apply delete_route_present|].
  rewrite get_data_eq, get_target_eq. cbn [fst kv]. split.
  - rewrite !lookup_delete. repeat case_decide; done.
  - rewrite !lookup_delete_ne by done. by rewrite H2, Htext.
Qed.

Lemma delete_removes_shared_target_data_witness :
  exists resp w',
    _kv_atomic_delete_route_parts Example.proxy
      "jupyterhub/routes/%2Fuser%2Falice%2F" (Example.keys "alice")
      Example.shared = (Ok (true, resp), w')
    /\ (_kv_get_data (targetKey Example.proxy "http://10.0.0.9:9000") w').1
       = Ok None
    /\ (_kv_get_target "jupyterhub/routes/%2Fuser%2Fbob%2F" w').1
       = Ok (Some "http://10.0.0.9:9000").
Proof.
  apply (delete_removes_shared_target_data Example.proxy
           "jupyterhub/routes/%2Fuser%2Falice%2F"
           "jupyterhub/routes/%2Fuser%2Fbob%2F"
           "http://10.0.0.9:9000" "meta1" (Example.keys "alice")
           Example.shared).
  - discriminate.
  - vm_compute. reflexivity.
  - vm_compute. reflexivity.
  - vm_compute. reflexivity.
  - reflexivity.
  - compute_done.
Defined.

(** C10. [_kv_get_data k] is one read of the key [k] as it is given: no
    escaping, no [<jupyterhubPrefix>/targets/] prefix.  It returns the
    stored bytes untouched, or [None] when [k] is absent, and leaves the
    store as it was.  A caller must pass the computed target key, as
    [_kv_get_route_parts] does. *)
Theorem get_data_reads_key_verbatim key w :
  _kv_get_data key w
  = (Ok (kv w !! key),
     {| kv := kv w;
        requests := requests w ++ [etcd3.ReqGet key];
        warnings := warnings w |})
  /\ (forall self value entry_key routespec,
         Py.utf8_valid entry_key = true ->
         Py.utf8_valid value = true ->
         escapism.unescape (Py.replace1 entry_key (routesPrefix self) "")
         = Ok routespec ->
         requests (_kv_get_route_parts self
                     (value, {| etcd3.key := entry_key |}) w).2
         = requests w
           ++ [etcd3.ReqGet
                 (Py.join (kv_separator self)
                    [kv_jupyterhub_prefix self; "targets";
                     escapism.escape value])]).
Proof.
  split; [apply get_data_eq|].
  intros self value entry_key routespec Hkey Hvalue Hun.
  rewrite get_route_parts_eq by assumption. by rewrite Hun.
Qed.

Lemma get_data_reads_key_verbatim_witness :
  requests (_kv_get_route_parts Example.proxy
              ("http://10.0.0.9:9000",
               {| etcd3.key := "jupyterhub/routes/%2Fuser%2Fbob%2F" |})
              Example.shared).2
  = requests Example.shared
    ++ [etcd3.ReqGet
          (Py.join "/" ["jupyterhub"; "targets";
                        escapism.escape "http://10.0.0.9:9000"])].
Proof.
  exact (proj2 (get_data_reads_key_verbatim "unused" Example.shared)
           Example.proxy "http://10.0.0.9:9000"
           "jupyterhub/routes/%2Fuser%2Fbob%2F" "/user/bob/"
           eq_refl eq_refl eq_refl).
Defined.

(** ** Route keys and the route namespace *)

Section RouteKeys.

Variable self : TraefikEtcdProxy.

Lemma routeKey_eq routespec :
  routeKey self routespec = routesPrefix self +:+ escapism.escape routespec.
Proof.
  unfold routeKey, routesPrefix. rewrite join3, join2.
  by rewrite !str_app_assoc.
Qed.

Global Instance routeKey_inj : Inj (=) (=) (routeKey self).
Proof.
  intros a b Heq. rewrite !routeKey_eq in Heq.
  apply (inj (String.app _)) in Heq. by apply escape_inj.
Qed.

Lemma routeKey_inside routespec :
  Py.startswith (routeKey self routespec) (routesPrefix self) = true.
Proof. rewrite routeKey_eq. apply startswith_app. Qed.

Lemma targetKey_outside target :
  Py.startswith (targetKey self target) (routesPrefix self) = false.
Proof.
  unfold targetKey, routesPrefix. rewrite join3, join2.
  by rewrite !startswith_common.
Qed.

(** Stripping the routes prefix from a route key and unescaping gives the
    routespec back. *)
Lemma routeKey_decoded routespec :
  escapism.unescape (Py.replace1 (routeKey self routespec)
                       (routesPrefix self) "")
  = Ok routespec.
Proof. by rewrite routeKey_eq, replace1_prefix, unescape_escape. Qed.

Lemma utf8_valid_routeKey routespec :
  config_ok self -> Py.utf8_valid (routeKey self routespec) = true.
Proof.
  intros [Hp Hs]. unfold routeKey. rewrite join3.
  repeat (apply utf8_valid_app; try assumption; try reflexivity).
  apply utf8_valid_escape.
Qed.

End RouteKeys.

(** ** Histories keep the route table in the store *)

Section Histories.

Variable self : TraefikEtcdProxy.

Local Abbreviation inside :=
  (fun kv : string * string =>
     Py.startswith kv.1 (routesPrefix self) = true).

Lemma outside_not_inside k :
  Py.startswith k (routesPrefix self) = false ->
  forall y : string, ~ inside (k, y).
Proof. intros Hk y. simpl. by rewrite Hk. Qed.

Lemma holds_table_lookup w table routespec :
  holds_table self w table ->
  kv w !! routeKey self routespec = table !! routespec.
Proof.
  intros [Hns _].
  assert (Hf : filter inside (kv w) !! routeKey self routespec
               = kv w !! routeKey self routespec).
  { rewrite map_lookup_filter.
    destruct (kv w !! routeKey self routespec) as [v|]; [|reflexivity].
    simpl. rewrite option_guard_True; [reflexivity|].
    apply routeKey_inside. }
  rewrite <- Hf, Hns. apply lookup_kmap, _.
Qed.

Lemma holds_table_fresh : holds_table self fresh ∅.
Proof.
  split; [|apply map_Forall_empty].
  simpl. by rewrite map_filter_empty, kmap_empty.
Qed.

(** Puts outside the route namespace leave the namespace as it was. *)
Lemma puts_outside (data : list (string * string)) (m : gmap string string) :
  Forall (fun k => Py.startswith k (routesPrefix self) = false) data.*1 ->
  filter inside
    (etcd3.apply_ops m ((fun kv => etcd3.Put kv.1 kv.2) <$> data)).1
  = filter inside m.
Proof.
  revert m. induction data as [|[k v] data IH]; intros m Hout; [reflexivity|].
  apply Forall_cons in Hout as [Hk Hout].
  cbn [fmap list_fmap etcd3.apply_ops etcd3.apply_op fst snd].
  destruct (etcd3.apply_ops (<[k:=v]> m) _) as [m2 rs] eqn:Hrest.
  cbn [fst]. replace m2 with (m2, rs).1 by reflexivity.
  rewrite <- Hrest.
  unfold fmap in IH. rewrite IH by exact Hout.
  by apply map_filter_insert_not, outside_not_inside.
Qed.

Lemma persist_dynamic_config_kv data w :
  kv (persist_dynamic_config data w).2
  = if etcd3.txn_accepted ((fun kv => etcd3.Put kv.1 kv.2) <$> data)
    then (etcd3.apply_ops (kv w)
            ((fun kv => etcd3.Put kv.1 kv.2) <$> data)).1
    else kv w.
Proof.
  unfold persist_dynamic_config, bind, _etcd_transaction, etcd3.transaction.
  change (etcd3.txn_accepted []) with true. rewrite andb_true_r.
  destruct (etcd3.txn_accepted _); [|reflexivity].
  cbn [forallb]. by destruct (etcd3.apply_ops _ _).
Qed.

Lemma step_holds_table st c :
  call_ok self c ->
  holds_table self st.1 st.2 ->
  holds_table self (step self st c).1 (step self st c).2.
Proof.
  destruct st as [w table]. intros Hok [Hns Htext]. cbn [fst snd] in *.
  destruct c as [routespec target data rk rule | routespec rk | data];
    cbn [step fst snd].
  - destruct Hok as [Htarget Hkeys].
    unfold descriptor_keys in Hkeys.
    apply Forall_cons in Hkeys as [Hsu Hkeys].
    apply Forall_cons in Hkeys as [Hrs Hkeys].
    apply Forall_cons in Hkeys as [Hrr _].
    rewrite add_route_eq.
    destruct (etcd3.txn_accepted _); cbn [succeeded fst snd];
      [|by split].
    split; [|by apply map_Forall_insert_2].
    cbn [kv].
    rewrite !(map_filter_insert_not inside)
      by (apply outside_not_inside;
          first [assumption | apply targetKey_outside]).
    rewrite map_filter_insert_True by (simpl; apply routeKey_inside).
    rewrite Hns. by rewrite kmap_insert by apply _.
  - unfold descriptor_keys in Hok.
    apply Forall_cons in Hok as [Hsu Hok].
    apply Forall_cons in Hok as [Hrs Hok].
    apply Forall_cons in Hok as [Hrr _].
    pose proof (holds_table_lookup w table routespec (conj Hns Htext))
      as Hlook.
    destruct (table !! routespec) as [target|] eqn:Htab.
    + assert (Hvalid : Py.utf8_valid target = true)
        by (by apply (Htext routespec)).
      rewrite (delete_route_present _ _ _ _ _ Hlook Hvalid).
      cbn [succeeded fst snd]. split; [|by apply map_Forall_delete].
      cbn [kv].
      rewrite !(map_filter_delete_not inside)
        by (intros y _; apply outside_not_inside;
            first [assumption | apply targetKey_outside]).
      rewrite map_filter_delete, Hns. by rewrite kmap_delete by apply _.
    + rewrite (delete_route_absent _ _ _ _ Hlook).
      cbn [succeeded fst snd]. rewrite delete_id by done. by split.
  - split; [|exact Htext].
    rewrite persist_dynamic_config_kv.
    destruct (etcd3.txn_accepted _); [|exact Hns].
    rewrite <- Hns. by apply puts_outside.
Qed.

Lemma foldl_step_holds_table cs st :
  Forall (call_ok self) cs ->
  holds_table self st.1 st.2 ->
  holds_table self (foldl (step self) st cs).1 (foldl (step self) st cs).2.
Proof.
  revert st. induction cs as [|c cs IH]; intros st Hok Hinv; [exact Hinv|].
  apply Forall_cons in Hok as [Hc Hcs]. simpl.
  apply IH; [exact Hcs|]. by apply step_holds_table.
Qed.

Lemma run_history_holds_table cs :
  Forall (call_ok self) cs ->
  holds_table self (run_history self cs).1 (run_history self cs).2.
Proof.
  intros Hok. apply foldl_step_holds_table; [exact Hok|].
  apply holds_table_fresh.
Qed.

End Histories.

(** ** Listing and decoding *)

Section Listing.

Variable self : TraefikEtcdProxy.
Hypothesis Hconfig : config_ok self.

Lemma prefixed_entries_eq w :
  _kv_get_jupyterhub_prefixed_entries self w =
  (Ok (etcd3.get_prefix (routesPrefix self) (kv w)),
   {| kv := kv w;
      requests := requests w ++ [etcd3.ReqGetPrefix (routesPrefix self)];
      warnings := warnings w |}).
Proof. reflexivity. Qed.

(** Decoding the entries of a route table, one after the other. *)
Lemma mapM_route_parts (table m : gmap string string)
    (entries : list (string * string)) :
  map_Forall (fun _ target => Py.utf8_valid target = true) table ->
  (forall k v, (k, v) ∈ entries ->
               exists routespec,
                 k = routeKey self routespec /\ table !! routespec = Some v) ->
  forall w, kv w = m ->
  exists decoded w',
    mapM (_kv_get_route_parts self)
      ((fun kv => (kv.2, {| etcd3.key := kv.1 |})) <$> entries) w
    = (Ok decoded, w')
    /\ kv w' = m
    /\ Forall2 (fun kv x =>
                  kv = prod_map (routeKey self) id (route_of x)
                  /\ x.2 = m !! targetKey self kv.2)
         entries decoded.
Proof.
  intros Htext.
  induction entries as [|[k v] entries IH]; intros Hin w Hw.
  - exists [], w. by repeat split.
  - subst m. destruct (Hin k v) as (routespec & -> & Htab); [by left|].
    assert (Hv : Py.utf8_valid v = true) by (by apply (Htext routespec)).
    destruct (IH (fun k' v' H => Hin k' v' (list_elem_of_further _ _ _ H))
                {| kv := kv w;
                   requests := requests w
                               ++ [etcd3.ReqGet (targetKey self v)];
                   warnings := warnings w |} eq_refl)
      as (decoded & w' & Hrun & Hkv & Hall).
    exists ((routespec, v, kv w !! targetKey self v) :: decoded), w'.
    split; [|split; [exact Hkv|]].
    + cbn [fmap list_fmap mapM]. unfold bind at 1. cbn [fst snd].
      rewrite get_route_parts_eq
        by first [by apply utf8_valid_routeKey | exact Hv].
      rewrite routeKey_decoded.
      unfold bind at 1. by rewrite Hrun.
    + by constructor.
Qed.

Lemma list_routes_of_table w table :
  holds_table self w table ->
  exists decoded w',
    list_routes self w = (Ok decoded, w')
    /\ kv w' = kv w
    /\ route_of <$> decoded ≡ₚ map_to_list table
    /\ Forall (fun x => x.2 = kv w !! targetKey self x.1.2) decoded.
Proof.
  intros [Hns Htext].
  set (entries :=
         map_to_list
           (filter (fun kv => Py.startswith kv.1 (routesPrefix self) = true)
              (kv w))).
  assert (Hentries : forall routespec v,
             (routeKey self routespec, v) ∈ entries
             <-> table !! routespec = Some v).
  { intros routespec v. unfold entries.
    rewrite elem_of_map_to_list, Hns.
    by rewrite (lookup_kmap (routeKey self)). }
  assert (Hshape : forall k v, (k, v) ∈ entries ->
             exists routespec,
               k = routeKey self routespec /\ table !! routespec = Some v).
  { intros k v Hin. unfold entries in Hin.
    rewrite elem_of_map_to_list, Hns in Hin.
    apply lookup_kmap_Some in Hin; [exact Hin | apply _]. }
  destruct (mapM_route_parts table (kv w) entries Htext Hshape
              {| kv := kv w;
                 requests := requests w
                             ++ [etcd3.ReqGetPrefix (routesPrefix self)];
                 warnings := warnings w |} eq_refl)
    as (decoded & w' & Hrun & Hkv & Hall).
  exists decoded, w'. split; [|split; [exact Hkv|split]].
  - unfold list_routes, bind. rewrite prefixed_entries_eq. exact Hrun.
  - assert (Hback : prod_map (routeKey self) id <$> (route_of <$> decoded)
                    = entries).
    { clear -Hall. induction Hall as [|kv x es ds [-> _] _ IH];
        [reflexivity|]. cbn [fmap list_fmap] in *. by rewrite IH. }
    apply NoDup_Permutation.
    + apply (NoDup_fmap_1 (prod_map (routeKey self) id)).
      rewrite Hback. apply NoDup_map_to_list.
    + apply NoDup_map_to_list.
    + intros [routespec v].
      rewrite elem_of_map_to_list, <- Hentries, <- Hback.
      symmetry.
      apply (list_elem_of_fmap_inj (prod_map (routeKey self) id)
               (route_of <$> decoded) (routespec, v)).
  - clear -Hall. induction Hall as [|kv x es ds [-> Hd] _ IH];
      constructor; [exact Hd | exact IH].
Qed.

End Listing.

(** C9. In every store state reached from a fresh store by a history of
    calls (routes added and deleted under their route keys, the dynamic
    configuration persisted, descriptor and configuration keys outside the
    route namespace), [listRoutes()] followed by [decodeRouteEntry] on each
    entry succeeds and yields, up to order, exactly the routespecs added
    and not deleted since, each once and each with the target stored for
    it; the store is left as it was. *)
Theorem list_routes_is_route_table self cs :
  config_ok self ->
  Forall (call_ok self) cs ->
  exists decoded w',
    list_routes self (run_history self cs).1 = (Ok decoded, w')
    /\ kv w' = kv (run_history self cs).1
    /\ route_of <$> decoded ≡ₚ map_to_list (run_history self cs).2
    /\ NoDup ((route_of <$> decoded).*1).
Proof.
  intros Hconfig Hcalls.
  destruct (list_routes_of_table self Hconfig _ _
              (run_history_holds_table self cs Hcalls))
    as (decoded & w' & Hrun & Hkv & Hperm & _).
  exists decoded, w'. repeat split; try assumption.
  rewrite Hperm. apply NoDup_fst_map_to_list.
Qed.

Lemma list_routes_is_route_table_witness :
  exists decoded w',
    list_routes Example.proxy
      (run_history Example.proxy
         [ AddRoute Example.alice "http://10.0.0.9:9000" "meta1"
             (Example.keys "alice") "PathPrefix(`/user/alice/`)";
           PersistDynamicConfig
             [("traefik/http/routers/r/entryPoints/0", "web")];
           AddRoute Example.bob "http://10.0.0.9:9000" "meta1"
             (Example.keys "bob") "PathPrefix(`/user/bob/`)";
           DeleteRoute Example.alice (Example.keys "alice") ]).1
    = (Ok decoded, w')
    /\ kv w'
       = kv (run_history Example.proxy
               [ AddRoute Example.alice "http://10.0.0.9:9000" "meta1"
                   (Example.keys "alice") "PathPrefix(`/user/alice/`)";
                 PersistDynamicConfig
                   [("traefik/http/routers/r/entryPoints/0", "web")];
                 AddRoute Example.bob "http://10.0.0.9:9000" "meta1"
                   (Example.keys "bob") "PathPrefix(`/user/bob/`)";
                 DeleteRoute Example.alice (Example.keys "alice") ]).1
    /\ route_of <$> decoded
       ≡ₚ map_to_list
            (run_history Example.proxy
               [ AddRoute Example.alice "http://10.0.0.9:9000" "meta1"
                   (Example.keys "alice") "PathPrefix(`/user/alice/`)";
                 PersistDynamicConfig
                   [("traefik/http/routers/r/entryPoints/0", "web")];
                 AddRoute Example.bob "http://10.0.0.9:9000" "meta1"
                   (Example.keys "bob") "PathPrefix(`/user/bob/`)";
                 DeleteRoute Example.alice (Example.keys "alice") ]).2
    /\ NoDup ((route_of <$> decoded).*1).
Proof.
  apply (list_routes_is_route_table Example.proxy).
  - split; reflexivity.
  - repeat constructor.
Defined.


(** * Further properties of the methods *)

(** ** Helpers *)

Lemma put_keys_puts (data : list (string * string)) :
  etcd3.put_keys ((fun kv => etcd3.Put kv.1 kv.2) <$> data) = data.*1.
Proof.
  unfold etcd3.put_keys.
  induction data as [|[k v] data IH]; [reflexivity|].
  csimpl. by rewrite IH.
Qed.

Lemma delete_keys_puts (data : list (string * string)) :
  etcd3.delete_keys ((fun kv => etcd3.Put kv.1 kv.2) <$> data) = [].
Proof.
  unfold etcd3.delete_keys.
  induction data as [|[k v] data IH]; [reflexivity|].
  csimpl. exact IH.
Qed.

Lemma txn_accepted_puts (data : list (string * string)) :
  etcd3.txn_accepted ((fun kv => etcd3.Put kv.1 kv.2) <$> data) = true
  <-> NoDup data.*1.
Proof.
  unfold etcd3.txn_accepted.
  rewrite put_keys_puts, delete_keys_puts, andb_true_iff, distinct_spec.
  split; [tauto|]. intros Hnd. split; [exact Hnd|].
  apply forallb_forall. reflexivity.
Qed.

(** Puts on different keys, applied in order, are a left-biased union. *)
Lemma apply_puts_union (data : list (string * string))
    (m : gmap string string) :
  NoDup data.*1 ->
  (etcd3.apply_ops m ((fun kv => etcd3.Put kv.1 kv.2) <$> data)).1
  = list_to_map data ∪ m.
Proof.
  revert m. induction data as [|[k v] data IH]; intros m Hnd.
  - cbn. by rewrite (left_id_L ∅ (∪)).
  - cbn [fmap list_fmap fst snd] in Hnd. apply NoDup_cons in Hnd as [Hk Hnd].
    cbn [fmap list_fmap etcd3.apply_ops etcd3.apply_op fst snd].
    destruct (etcd3.apply_ops (<[k:=v]> m) _) as [m2 rs] eqn:Hrest.
    cbn [fst]. replace m2 with (m2, rs).1 by reflexivity.
    rewrite <- Hrest. unfold fmap in IH. rewrite IH by exact Hnd.
    rewrite list_to_map_cons.
    rewrite <- insert_union_r by (by apply not_elem_of_list_to_map_1).
    by rewrite insert_union_l.
Qed.

Lemma apply_ops_length (m : gmap string string) (ops : list etcd3.op) :
  length (etcd3.apply_ops m ops).2 = length ops.
Proof.
  revert m. induction ops as [|o ops IH]; intros m; [reflexivity|].
  cbn [etcd3.apply_ops]. destruct (etcd3.apply_op m o) as [m1 r].
  specialize (IH m1). destruct (etcd3.apply_ops m1 ops) as [m2 rs].
  cbn [snd length] in *. by rewrite IH.
Qed.

Lemma persist_dynamic_config_eq data w :
  persist_dynamic_config data w =
  let puts := (fun kv => etcd3.Put kv.1 kv.2) <$> data in
  if etcd3.txn_accepted puts then
    (Ok (true, (etcd3.apply_ops (kv w) puts).2),
     {| kv := (etcd3.apply_ops (kv w) puts).1;
        requests := requests w ++ [etcd3.ReqTransaction [] puts []];
        warnings := warnings w |})
  else
    (Raise DuplicateKey,
     {| kv := kv w;
        requests := requests w ++ [etcd3.ReqTransaction [] puts []];
        warnings := warnings w |}).
Proof.
  cbv zeta.
  unfold persist_dynamic_config, bind, _etcd_transaction, etcd3.transaction.
  change (etcd3.txn_accepted []) with true. rewrite andb_true_r.
  destruct (etcd3.txn_accepted _); [|reflexivity].
  cbn [forallb]. by destruct (etcd3.apply_ops _ _).
Qed.

Lemma targetKey_inj self : Inj (=) (=) (targetKey self).
Proof.
  intros a b Heq. unfold targetKey in Heq. rewrite !join3 in Heq.
  do 4 apply (inj (String.app _)) in Heq. by apply escape_inj.
Qed.

(** ** Adding and deleting routes *)

(** X1. [_kv_atomic_add_route_parts] touches no key other than the five it
    puts: every other key holds after the call what it held before,
    whether the transaction was accepted or not. *)
Theorem add_route_frame self spec target data rk rule w k :
  k ∉ spec :: targetKey self target :: descriptor_keys rk ->
  kv (_kv_atomic_add_route_parts self spec target data rk rule w).2 !! k
  = kv w !! k.
Proof.
  unfold descriptor_keys. rewrite !not_elem_of_cons.
  intros (? & ? & ? & ? & ? & _).
  rewrite add_route_eq. destruct (etcd3.txn_accepted _); [|reflexivity].
  cbn [snd kv]. by rewrite !lookup_insert_ne by done.
Qed.

Lemma add_route_frame_witness :
  kv (_kv_atomic_add_route_parts Example.proxy
        (routeKey Example.proxy "/user/carol/") "http://10.0.0.7:8000"
        "meta3" (Example.keys "carol") "PathPrefix(`/user/carol/`)"
        Example.shared).2 !! routeKey Example.proxy Example.bob
  = kv Example.shared !! routeKey Example.proxy Example.bob.
Proof.
  apply (add_route_frame Example.proxy).
  compute_done.
Defined.

(** X2. [_kv_atomic_delete_route_parts] never creates or changes an entry:
    whatever the store holds after the call, it held before.  The keys
    it can remove are the routespec key, the data key of the target
    stored under it, and the three descriptor keys; every other key is
    left as it was. *)
Theorem delete_route_only_removes self spec rk w :
  (forall k v,
      kv (_kv_atomic_delete_route_parts self spec rk w).2 !! k = Some v ->
      kv w !! k = Some v)
  /\ (forall k,
         k ∉ spec :: descriptor_keys rk ->
         (forall value, kv w !! spec = Some value ->
                        k <> targetKey self value) ->
         kv (_kv_atomic_delete_route_parts self spec rk w).2 !! k
         = kv w !! k).
Proof.
  destruct (kv w !! spec) as [value|] eqn:Hlook.
  - destruct (Py.utf8_valid value) eqn:Htext.
    + rewrite (delete_route_present _ _ _ _ _ Hlook Htext). cbn [snd kv].
      split.
      * intros k v. rewrite !lookup_delete.
        repeat case_decide; done.
      * unfold descriptor_keys. intros k Hk Hvalue.
        rewrite !not_elem_of_cons in Hk. destruct Hk as (? & ? & ? & ? & _).
        specialize (Hvalue value eq_refl).
        by rewrite !lookup_delete_ne by done.
    + rewrite (delete_route_undecodable _ _ _ _ _ Hlook Htext). by split.
  - rewrite (delete_route_absent _ _ _ _ Hlook). by split.
Qed.

Lemma delete_route_only_removes_witness :
  kv Example.shared !! "traefik/http/routers/bob/rule"
  = Some "PathPrefix(`/user/bob/`)"
  /\ kv (_kv_atomic_delete_route_parts Example.proxy
           (routeKey Example.proxy Example.alice) (Example.keys "alice")
           Example.shared).2 !! routeKey Example.proxy Example.bob
     = kv Example.shared !! routeKey Example.proxy Example.bob.
Proof.
  destruct (delete_route_only_removes Example.proxy
              (routeKey Example.proxy Example.alice) (Example.keys "alice")
              Example.shared) as [Hsub Hframe].
  split.
  - apply Hsub. vm_compute. reflexivity.
  - apply Hframe.
    + compute_done.
    + intros value Hvalue. vm_compute in Hvalue.
      injection Hvalue as <-. discriminate.
Defined.

(** X3. A delete undoes an add.  After [_kv_atomic_add_route_parts] has
    succeeded for a target that is text, [_kv_atomic_delete_route_parts]
    with the same routespec key and route keys succeeds, and the store
    is the one before the add with the five keys removed; when none of
    the five keys was in the store before the add, the store is back to
    what it was. *)
Theorem add_then_delete self spec target data rk rule w resp w1 :
  _kv_atomic_add_route_parts self spec target data rk rule w
  = (Ok (true, resp), w1) ->
  Py.utf8_valid target = true ->
  exists resp' w2,
    _kv_atomic_delete_route_parts self spec rk w1
    = (Ok (true, Some resp'), w2)
    /\ kv w2
       = delete (router_rule_path rk)
           (delete (router_service_path rk)
              (delete (service_url_path rk)
                 (delete (targetKey self target)
                    (delete spec (kv w)))))
    /\ (Forall (fun k => kv w !! k = None)
          (spec :: targetKey self target :: descriptor_keys rk) ->
        kv w2 = kv w).
Proof.
  intros Hadd Htext. rewrite add_route_eq in Hadd.
  destruct (etcd3.txn_accepted _) eqn:Hacc; [|discriminate Hadd].
  apply add_route_accepted in Hacc.
  rewrite !NoDup_cons, !not_elem_of_cons in Hacc.
  destruct Hacc as ((? & ? & ? & ? & _) & _).
  injection Hadd as _ <-.
  assert (Hlook :
            kv {| kv := <[router_rule_path rk:=rule]>
                          (<[router_service_path rk:=service_alias rk]>
                             (<[service_url_path rk:=target]>
                                (<[targetKey self target:=data]>
                                   (<[spec:=target]> (kv w)))));
                  requests := requests w
                              ++ [etcd3.ReqTransaction []
                                    [ etcd3.Put spec target;
                                      etcd3.Put (targetKey self target) data;
                                      etcd3.Put (service_url_path rk) target;
                                      etcd3.Put (router_service_path rk)
                                        (service_alias rk);
                                      etcd3.Put (router_rule_path rk) rule ]
                                    []];
                  warnings := warnings w |} !! spec = Some target).
  { cbn [kv]. by rewrite !lookup_insert_ne, lookup_insert_eq by done. }
  eexists _, _. split; [by apply delete_route_present|].
  cbn [kv].
  assert (Hkv :
            delete (router_rule_path rk)
              (delete (router_service_path rk)
                 (delete (service_url_path rk)
                    (delete (targetKey self target)
                       (delete spec
                          (<[router_rule_path rk:=rule]>
                             (<[router_service_path rk:=service_alias rk]>
                                (<[service_url_path rk:=target]>
                                   (<[targetKey self target:=data]>
                                      (<[spec:=target]> (kv w))))))))))
            = delete (router_rule_path rk)
                (delete (router_service_path rk)
                   (delete (service_url_path rk)
                      (delete (targetKey self target)
                         (delete spec (kv w)))))).
  { apply map_eq. intros i.
    rewrite !lookup_delete, !lookup_insert.
    repeat case_decide; done. }
  split; [exact Hkv|].
  intros Hfresh. rewrite Hkv. unfold descriptor_keys in Hfresh.
  repeat (apply Forall_cons in Hfresh as [? Hfresh]).
  by rewrite !delete_id
    by (rewrite ?lookup_delete; repeat case_decide; done).
Qed.

Lemma add_then_delete_witness :
  exists resp' w2,
    _kv_atomic_delete_route_parts Example.proxy
      (routeKey Example.proxy "/user/carol/") (Example.keys "carol")
      (_kv_atomic_add_route_parts Example.proxy
         (routeKey Example.proxy "/user/carol/") "http://10.0.0.7:8000"
         "meta3" (Example.keys "carol") "PathPrefix(`/user/carol/`)"
         Example.shared).2
    = (Ok (true, Some resp'), w2)
    /\ kv w2 = kv Example.shared.
Proof.
  destruct (add_then_delete Example.proxy
              (routeKey Example.proxy "/user/carol/") "http://10.0.0.7:8000"
              "meta3" (Example.keys "carol") "PathPrefix(`/user/carol/`)"
              Example.shared
              [ etcd3.PutResponse; etcd3.PutResponse; etcd3.PutResponse;
                etcd3.PutResponse; etcd3.PutResponse ]
              (_kv_atomic_add_route_parts Example.proxy
                 (routeKey Example.proxy "/user/carol/")
                 "http://10.0.0.7:8000" "meta3" (Example.keys "carol")
                 "PathPrefix(`/user/carol/`)" Example.shared).2)
    as (resp' & w2 & Hdel & _ & Hback).
  - vm_compute. reflexivity.
  - reflexivity.
  - exists resp', w2. split; [exact Hdel|].
    apply Hback. repeat constructor; vm_compute; reflexivity.
Defined.

(** X4. Deleting twice is deleting once: when
    [_kv_atomic_delete_route_parts] has returned, a second call with the
    same arguments returns [(True, None)] and leaves the store as the
    first call left it. *)
Theorem delete_route_twice self spec rk w r w1 :
  _kv_atomic_delete_route_parts self spec rk w = (Ok r, w1) ->
  exists w2,
    _kv_atomic_delete_route_parts self spec rk w1 = (Ok (true, None), w2)
    /\ kv w2 = kv w1.
Proof.
  intros Hdel.
  assert (Hgone : kv w1 !! spec = None).
  { destruct (kv w !! spec) as [value|] eqn:Hlook.
    - destruct (Py.utf8_valid value) eqn:Htext.
      + rewrite (delete_route_present _ _ _ _ _ Hlook Htext) in Hdel.
        injection Hdel as _ <-. cbn [kv].
        rewrite !lookup_delete. repeat case_decide; done.
      + rewrite (delete_route_undecodable _ _ _ _ _ Hlook Htext) in Hdel.
        discriminate Hdel.
    - rewrite (delete_route_absent _ _ _ _ Hlook) in Hdel.
      by injection Hdel as _ <-. }
  eexists. split; [by apply delete_route_absent|reflexivity].
Qed.

Lemma delete_route_twice_witness :
  exists w2,
    _kv_atomic_delete_route_parts Example.proxy
      (routeKey Example.proxy Example.alice) (Example.keys "alice")
      (_kv_atomic_delete_route_parts Example.proxy
         (routeKey Example.proxy Example.alice) (Example.keys "alice")
         Example.shared).2
    = (Ok (true, None), w2)
    /\ kv w2
       = kv (_kv_atomic_delete_route_parts Example.proxy
               (routeKey Example.proxy Example.alice) (Example.keys "alice")
               Example.shared).2.
Proof.
  apply (delete_route_twice Example.proxy
           (routeKey Example.proxy Example.alice) (Example.keys "alice")
           Example.shared
           (true,
            Some [ etcd3.DeleteRangeResponse 1; etcd3.DeleteRangeResponse 1;
                   etcd3.DeleteRangeResponse 1; etcd3.DeleteRangeResponse 1;
                   etcd3.DeleteRangeResponse 1 ])).
  vm_compute. reflexivity.
Defined.

(** X5. A routespec key whose stored value is not UTF-8 cannot be deleted:
    [_kv_atomic_delete_route_parts] raises [UnicodeDecodeError] after the
    read, submits no transaction, and the store keeps the entry. *)
Theorem delete_route_undecodable_value self spec rk w value :
  kv w !! spec = Some value ->
  Py.utf8_valid value = false ->
  exists w',
    _kv_atomic_delete_route_parts self spec rk w
    = (Raise UnicodeDecodeError, w')
    /\ kv w' = kv w
    /\ requests w' = requests w ++ [etcd3.ReqGet spec]
    /\ kv w' !! spec = Some value.
Proof.
  intros Hlook Htext. eexists.
  split; [by apply (delete_route_undecodable self spec rk w value)|].
  by repeat split.
Qed.

Lemma delete_route_undecodable_value_witness :
  exists w',
    _kv_atomic_delete_route_parts Example.proxy "k" (Example.keys "a")
      {| kv := {["k" := String "255"%char ""]};
         requests := []; warnings := [] |}
    = (Raise UnicodeDecodeError, w')
    /\ kv w' = {["k" := String "255"%char ""]}
    /\ requests w' = [] ++ [etcd3.ReqGet "k"]
    /\ kv w' !! "k" = Some (String "255"%char "").
Proof.
  exact (delete_route_undecodable_value Example.proxy "k" (Example.keys "a")
           {| kv := {["k" := String "255"%char ""]};
              requests := []; warnings := [] |}
           (String "255"%char "") eq_refl eq_refl).
Defined.



(** ** Listing and decoding entries *)

Lemma elem_of_get_prefix p (m : gmap string string) v k :
  (v, {| etcd3.key := k |}) ∈ etcd3.get_prefix p m
  <-> m !! k = Some v /\ Py.startswith k p = true.
Proof.
  unfold etcd3.get_prefix. rewrite list_elem_of_fmap. split.
  - intros ([k' v'] & Heq & Hin). cbn [fst snd] in Heq.
    injection Heq as -> ->.
    by apply elem_of_map_to_list, map_lookup_filter_Some in Hin.
  - intros [Hlook Hp]. exists (k, v). split; [reflexivity|].
    by apply elem_of_map_to_list, map_lookup_filter_Some.
Qed.

(** X7. An added route is listed and decodes to what was added.  After
    [_kv_atomic_add_route_parts] has succeeded on the route key of a
    routespec, for a target that is text,
    [_kv_get_jupyterhub_prefixed_entries] returns the entry of that key,
    and [_kv_get_route_parts] on it returns the routespec, the target and
    the data. *)
Theorem add_then_decode_entry self routespec target data rk rule w resp w1 :
  config_ok self ->
  _kv_atomic_add_route_parts self (routeKey self routespec)
    target data rk rule w = (Ok (true, resp), w1) ->
  Py.utf8_valid target = true ->
  (exists entries w2,
      _kv_get_jupyterhub_prefixed_entries self w1 = (Ok entries, w2)
      /\ (target, {| etcd3.key := routeKey self routespec |}) ∈ entries)
  /\ (_kv_get_route_parts self
        (target, {| etcd3.key := routeKey self routespec |}) w1).1
     = Ok (routespec, target, Some data).
Proof.
  intros Hconfig Hadd Htext. rewrite add_route_eq in Hadd.
  destruct (etcd3.txn_accepted _) eqn:Hacc; [|discriminate Hadd].
  apply add_route_accepted in Hacc.
  rewrite !NoDup_cons, !not_elem_of_cons in Hacc.
  destruct Hacc as ((? & ? & ? & ? & _) & (? & ? & ? & _) & _).
  injection Hadd as _ <-. split.
  - eexists _, _. split; [apply prefixed_entries_eq|].
    apply elem_of_get_prefix. split; [|apply routeKey_inside].
    cbn [kv]. by rewrite !lookup_insert_ne, lookup_insert_eq by done.
  - rewrite get_route_parts_eq
      by first [by apply utf8_valid_routeKey | exact Htext].
    rewrite routeKey_decoded. cbn [fst kv].
    by rewrite !lookup_insert_ne, lookup_insert_eq by done.
Qed.

Lemma add_then_decode_entry_witness :
  (_kv_get_route_parts Example.proxy
     ("http://10.0.0.5:8888",
      {| etcd3.key := routeKey Example.proxy "host.tld/path/" |})
     (_kv_atomic_add_route_parts Example.proxy
        (routeKey Example.proxy "host.tld/path/") "http://10.0.0.5:8888"
        "meta1" (Example.keys "h") "Host(`host.tld`)" fresh).2).1
  = Ok ("host.tld/path/", "http://10.0.0.5:8888", Some "meta1").
Proof.
  refine (proj2 (add_then_decode_entry Example.proxy "host.tld/path/"
                   "http://10.0.0.5:8888" "meta1" (Example.keys "h")
                   "Host(`host.tld`)" fresh
                   [ etcd3.PutResponse; etcd3.PutResponse;
                     etcd3.PutResponse; etcd3.PutResponse;
                     etcd3.PutResponse ]
                   _ _ _ _)).
  - split; reflexivity.
  - vm_compute. reflexivity.
  - reflexivity.
Defined.

(** X8. The listing is the route namespace.
    [_kv_get_jupyterhub_prefixed_entries] returns the stored pairs whose
    key starts with [<jupyterhubPrefix><sep>routes<sep>], each key once;
    the data entry of a target, stored under
    [<jupyterhubPrefix><sep>targets<sep>...], is never among them,
    whatever the prefix and the separator are. *)
Theorem prefixed_entries_are_route_namespace self w :
  exists entries,
    _kv_get_jupyterhub_prefixed_entries self w
    = (Ok entries,
       {| kv := kv w;
          requests := requests w
                      ++ [etcd3.ReqGetPrefix
                            (Py.join (kv_separator self)
                               [kv_jupyterhub_prefix self;
                                "routes" +:+ kv_separator self])];
          warnings := warnings w |})
    /\ (forall v k,
           (v, {| etcd3.key := k |}) ∈ entries
           <-> kv w !! k = Some v
               /\ Py.startswith k
                    (Py.join (kv_separator self)
                       [kv_jupyterhub_prefix self;
                        "routes" +:+ kv_separator self]) = true)
    /\ (forall v target,
           (v, {| etcd3.key :=
                    Py.join (kv_separator self)
                      [kv_jupyterhub_prefix self; "targets";
                       escapism.escape target] |}) ∉ entries)
    /\ NoDup ((fun e : etcd3.kv_entry => etcd3.key e.2) <$> entries).
Proof.
  eexists. split; [apply prefixed_entries_eq|].
  split; [intros v k; apply elem_of_get_prefix|]. split.
  - intros v target Hin. apply elem_of_get_prefix in Hin as [_ Hin].
    fold (targetKey self target) in Hin. fold (routesPrefix self) in Hin.
    by rewrite targetKey_outside in Hin.
  - unfold etcd3.get_prefix. rewrite <- list_fmap_compose.
    apply NoDup_fst_map_to_list.
Qed.

Lemma prefixed_entries_are_route_namespace_witness :
  exists entries,
    (_kv_get_jupyterhub_prefixed_entries Example.proxy Example.shared).1
    = Ok entries
    /\ ("http://10.0.0.9:9000",
        {| etcd3.key := routeKey Example.proxy Example.alice |}) ∈ entries.
Proof.
  destruct (prefixed_entries_are_route_namespace Example.proxy
              Example.shared) as (entries & Hrun & Hiff & _).
  exists entries. split; [by rewrite Hrun|].
  apply Hiff. split; vm_compute; reflexivity.
Defined.

(** ** What the methods never do *)

(** X9. The status flag is never [False].  Every transaction is submitted
    with an empty guard list and an empty failure branch, so whenever
    [_kv_atomic_add_route_parts], [_kv_atomic_delete_route_parts] or
    [persist_dynamic_config] returns, the flag it returns is [True]; a
    failure can only show as an exception. *)
Theorem status_is_always_true self :
  (forall spec target data rk rule w status resp w',
      _kv_atomic_add_route_parts self spec target data rk rule w
      = (Ok (status, resp), w') -> status = true)
  /\ (forall spec rk w status resp w',
         _kv_atomic_delete_route_parts self spec rk w
         = (Ok (status, resp), w') -> status = true)
  /\ (forall data w status resp w',
         persist_dynamic_config data w = (Ok (status, resp), w') ->
         status = true).
Proof.
  split; [|split].
  - intros spec target data rk rule w status resp w' H.
    rewrite add_route_eq in H.
    destruct (etcd3.txn_accepted _); [|discriminate H].
    by injection H as <- _ _.
  - intros spec rk w status resp w' H.
    destruct (kv w !! spec) as [value|] eqn:Hlook.
    + destruct (Py.utf8_valid value) eqn:Htext.
      * rewrite (delete_route_present _ _ _ _ _ Hlook Htext) in H.
        by injection H as <- _ _.
      * rewrite (delete_route_undecodable _ _ _ _ _ Hlook Htext) in H.
        discriminate H.
    + rewrite (delete_route_absent _ _ _ _ Hlook) in H.
      by injection H as <- _ _.
  - intros data w status resp w' H.
    rewrite persist_dynamic_config_eq in H. cbv zeta in H.
    destruct (etcd3.txn_accepted _); [|discriminate H].
    by injection H as <- _ _.
Qed.

Lemma status_is_always_true_witness :
  (_kv_atomic_delete_route_parts Example.proxy
     (routeKey Example.proxy Example.alice) (Example.keys "alice")
     Example.shared).1
  = Ok (true,
        Some [ etcd3.DeleteRangeResponse 1; etcd3.DeleteRangeResponse 1;
               etcd3.DeleteRangeResponse 1; etcd3.DeleteRangeResponse 1;
               etcd3.DeleteRangeResponse 1 ])
  /\ true = true.
Proof.
  split; [vm_compute; reflexivity|].
  refine (proj1 (proj2 (status_is_always_true Example.proxy))
            (routeKey Example.proxy Example.alice) (Example.keys "alice")
            Example.shared true
            (Some [ etcd3.DeleteRangeResponse 1; etcd3.DeleteRangeResponse 1;
                    etcd3.DeleteRangeResponse 1; etcd3.DeleteRangeResponse 1;
                    etcd3.DeleteRangeResponse 1 ])
            _ _).
  vm_compute. reflexivity.
Defined.

(** X10. Reading never writes.  [_kv_get_target], [_kv_get_data],
    [_kv_get_route_parts] and [_kv_get_jupyterhub_prefixed_entries] leave
    the contents of the store as they were, on every input and also when
    they raise. *)
Theorem reads_leave_store self w :
  (forall k, kv (_kv_get_target k w).2 = kv w)
  /\ (forall k, kv (_kv_get_data k w).2 = kv w)
  /\ (forall entry, kv (_kv_get_route_parts self entry w).2 = kv w)
  /\ kv (_kv_get_jupyterhub_prefixed_entries self w).2 = kv w.
Proof.
  split; [|split; [|split]].
  - intros k. by rewrite get_target_eq.
  - intros k. by rewrite get_data_eq.
  - intros [value [key]].
    unfold _kv_get_route_parts, bind, lift, Py.decode.
    cbn [fst snd etcd3.key].
    destruct (Py.utf8_valid key); [|reflexivity].
    destruct (Py.utf8_valid value); [|reflexivity].
    destruct (escapism.unescape _); [|reflexivity].
    destruct (escapism.unescape _); [|reflexivity].
    by rewrite get_data_eq.
  - reflexivity.
Qed.

(** X11. [_kv_get_route_parts] decodes before it reads: on an entry whose
    key or value is not UTF-8 it raises [UnicodeDecodeError] and sends
    the server nothing. *)
Theorem route_parts_undecodable self value key w :
  Py.utf8_valid key = false \/ Py.utf8_valid value = false ->
  _kv_get_route_parts self (value, {| etcd3.key := key |}) w
  = (Raise UnicodeDecodeError, w).
Proof.
  intros Hbad.
  unfold _kv_get_route_parts, bind, lift, Py.decode.
  cbn [fst snd etcd3.key].
  destruct (Py.utf8_valid key); [|reflexivity].
  destruct Hbad as [Hbad | ->]; [discriminate Hbad | reflexivity].
Qed.

Lemma route_parts_undecodable_witness :
  _kv_get_route_parts Example.proxy
    (String "192"%char "", {| etcd3.key := routeKey Example.proxy "/a/" |})
    Example.shared
  = (Raise UnicodeDecodeError, Example.shared).
Proof.
  apply (route_parts_undecodable Example.proxy).
  right. reflexivity.
Defined.

(** ** Persisting the dynamic configuration *)

(** X12. [persist_dynamic_config] on items with different keys submits one
    transaction of one put per item and succeeds; afterwards the store is
    the items laid over the old contents, so every item is read back and
    every key that is not an item keeps its value: nothing is deleted. *)
Theorem persist_dynamic_config_overlays data w :
  NoDup data.*1 ->
  exists resp w',
    persist_dynamic_config data w = (Ok (true, resp), w')
    /\ length resp = length data
    /\ requests w'
       = requests w
         ++ [etcd3.ReqTransaction []
               ((fun kv => etcd3.Put kv.1 kv.2) <$> data) []]
    /\ kv w' = list_to_map data ∪ kv w
    /\ (forall k v, (k, v) ∈ data -> (_kv_get_data k w').1 = Ok (Some v))
    /\ (forall k, k ∉ data.*1 -> kv w' !! k = kv w !! k).
Proof.
  intros Hnd. rewrite persist_dynamic_config_eq. cbv zeta.
  rewrite (proj2 (txn_accepted_puts data) Hnd).
  eexists _, _. split; [reflexivity|].
  split; [by rewrite apply_ops_length, length_fmap|].
  split; [reflexivity|]. cbn [kv].
  rewrite apply_puts_union by exact Hnd.
  split; [reflexivity|]. split.
  - intros k v Hin. rewrite get_data_eq. cbn [fst kv]. f_equal.
    apply lookup_union_Some_l. by apply elem_of_list_to_map_1.
  - intros k Hk. apply lookup_union_r.
    by apply not_elem_of_list_to_map_1.
Qed.

Lemma persist_dynamic_config_overlays_witness :
  exists resp w',
    persist_dynamic_config
      [("traefik/http/routers/r/entryPoints/0", "web");
       ("traefik/http/routers/r/rule", "PathPrefix(`/`)")]
      Example.shared = (Ok (true, resp), w')
    /\ length resp = 2%nat
    /\ (_kv_get_data "traefik/http/routers/r/rule" w').1
       = Ok (Some "PathPrefix(`/`)")
    /\ kv w' !! routeKey Example.proxy Example.bob
       = kv Example.shared !! routeKey Example.proxy Example.bob.
Proof.
  destruct (persist_dynamic_config_overlays
              [("traefik/http/routers/r/entryPoints/0", "web");
               ("traefik/http/routers/r/rule", "PathPrefix(`/`)")]
              Example.shared)
    as (resp & w' & Hrun & Hlen & _ & _ & Hread & Hframe).
  - compute_done.
  - exists resp, w'. split; [exact Hrun|]. split; [exact Hlen|].
    split.
    + apply Hread. compute_done.
    + apply Hframe. compute_done.
Defined.

(** X13. [persist_dynamic_config] never removes a key and is idempotent:
    whatever the items are, every key of the store is still there after
    the call, and a second call with the same items leaves the contents
    as the first call left them. *)
Theorem persist_dynamic_config_keeps_keys data w :
  (forall k, is_Some (kv w !! k) ->
             is_Some (kv (persist_dynamic_config data w).2 !! k))
  /\ kv (persist_dynamic_config data
           (persist_dynamic_config data w).2).2
     = kv (persist_dynamic_config data w).2.
Proof.
  rewrite !persist_dynamic_config_eq. cbv zeta.
  destruct (etcd3.txn_accepted _) eqn:Hacc; [|by split].
  cbn [snd kv]. apply txn_accepted_puts in Hacc.
  rewrite !apply_puts_union by exact Hacc. split.
  - intros k Hk. apply lookup_union_is_Some. by right.
  - by rewrite (assoc_L (∪)), (idemp_L (∪)).
Qed.

Lemma persist_dynamic_config_keeps_keys_witness :
  is_Some
    (kv (persist_dynamic_config
           [(routeKey Example.proxy Example.bob, "overwritten")]
           Example.shared).2 !! routeKey Example.proxy Example.bob).
Proof.
  apply (proj1 (persist_dynamic_config_keeps_keys
                  [(routeKey Example.proxy Example.bob, "overwritten")]
                  Example.shared)).
  vm_compute. eexists. reflexivity.
Defined.

(** ** Routes that do not interfere, and lookups along a history *)

(** X14. Deleting a route leaves a route to another target alone.  When
    the routespec key holds a target that is text, and a second route has
    a different target and a routespec key and data key that are none of
    the first route's routespec and descriptor keys, then after the
    delete the second route's target and data are read back as before. *)
Theorem delete_route_independent self spec1 rk1 w t1 spec2 t2 :
  kv w !! spec1 = Some t1 ->
  Py.utf8_valid t1 = true ->
  t1 <> t2 ->
  spec2 ∉ spec1 :: targetKey self t1 :: descriptor_keys rk1 ->
  targetKey self t2 ∉ spec1 :: descriptor_keys rk1 ->
  let w' := (_kv_atomic_delete_route_parts self spec1 rk1 w).2 in
  (_kv_get_target spec2 w').1 = (_kv_get_target spec2 w).1
  /\ (_kv_get_data (targetKey self t2) w').1
     = (_kv_get_data (targetKey self t2) w).1.
Proof.
  intros Hlook Htext Hne Hspec Htarget. cbv zeta.
  assert (Hkeys : targetKey self t1 <> targetKey self t2)
    by (intros Heq; by apply targetKey_inj in Heq).
  unfold descriptor_keys in *.
  rewrite !not_elem_of_cons in Hspec. rewrite !not_elem_of_cons in Htarget.
  destruct Hspec as (? & ? & ? & ? & ? & _).
  destruct Htarget as (? & ? & ? & ? & _).
  rewrite (delete_route_present _ _ _ _ _ Hlook Htext).
  rewrite !get_target_eq, !get_data_eq. cbn [fst snd kv].
  by rewrite !lookup_delete_ne by done.
Qed.

Lemma delete_route_independent_witness :
  (_kv_get_target (routeKey Example.proxy "/user/carol/")
     (_kv_atomic_delete_route_parts Example.proxy
        (routeKey Example.proxy Example.alice) (Example.keys "alice")
        (_kv_atomic_add_route_parts Example.proxy
           (routeKey Example.proxy "/user/carol/") "http://10.0.0.7:8000"
           "meta3" (Example.keys "carol") "PathPrefix(`/user/carol/`)"
           Example.shared).2).2).1
  = (_kv_get_target (routeKey Example.proxy "/user/carol/")
       (_kv_atomic_add_route_parts Example.proxy
          (routeKey Example.proxy "/user/carol/") "http://10.0.0.7:8000"
          "meta3" (Example.keys "carol") "PathPrefix(`/user/carol/`)"
          Example.shared).2).1
  /\ (_kv_get_data (targetKey Example.proxy "http://10.0.0.7:8000")
        (_kv_atomic_delete_route_parts Example.proxy
           (routeKey Example.proxy Example.alice) (Example.keys "alice")
           (_kv_atomic_add_route_parts Example.proxy
              (routeKey Example.proxy "/user/carol/") "http://10.0.0.7:8000"
              "meta3" (Example.keys "carol") "PathPrefix(`/user/carol/`)"
              Example.shared).2).2).1
     = (_kv_get_data (targetKey Example.proxy "http://10.0.0.7:8000")
          (_kv_atomic_add_route_parts Example.proxy
             (routeKey Example.proxy "/user/carol/") "http://10.0.0.7:8000"
             "meta3" (Example.keys "carol") "PathPrefix(`/user/carol/`)"
             Example.shared).2).1.
Proof.
  apply (delete_route_independent Example.proxy
           (routeKey Example.proxy Example.alice) (Example.keys "alice")
           (_kv_atomic_add_route_parts Example.proxy
              (routeKey Example.proxy "/user/carol/") "http://10.0.0.7:8000"
              "meta3" (Example.keys "carol") "PathPrefix(`/user/carol/`)"
              Example.shared).2
           "http://10.0.0.9:9000"
           (routeKey Example.proxy "/user/carol/") "http://10.0.0.7:8000").
  - vm_compute. reflexivity.
  - reflexivity.
  - discriminate.
  - compute_done.
  - compute_done.
Defined.

(** X15. Along a history, looking a route up agrees with the route table:
    in every state reached by a history of calls, [_kv_get_target] on the
    route key of a routespec returns the target the routespec was last
    added with, and [None] when it was never added or was deleted
    since. *)
Theorem get_target_follows_history self cs routespec :
  Forall (call_ok self) cs ->
  (_kv_get_target (routeKey self routespec) (run_history self cs).1).1
  = Ok ((run_history self cs).2 !! routespec).
Proof.
  intros Hcalls.
  pose proof (run_history_holds_table self cs Hcalls) as Hinv.
  rewrite get_target_eq. cbn [fst].
  rewrite (holds_table_lookup self _ _ routespec Hinv).
  destruct Hinv as [_ Htext].
  destruct (_ !! routespec) as [target|] eqn:Htab; [|reflexivity].
  by rewrite (Htext routespec target Htab).
Qed.

Lemma get_target_follows_history_witness :
  (_kv_get_target (routeKey Example.proxy Example.alice)
     (run_history Example.proxy
        [ AddRoute Example.alice "http://10.0.0.5:8888" "meta1"
            (Example.keys "alice") "PathPrefix(`/user/alice/`)";
          AddRoute Example.alice "http://10.0.0.6:8888" "meta2"
            (Example.keys "alice") "PathPrefix(`/user/alice/`)";
          DeleteRoute Example.bob (Example.keys "bob") ]).1).1
  = Ok ((run_history Example.proxy
           [ AddRoute Example.alice "http://10.0.0.5:8888" "meta1"
               (Example.keys "alice") "PathPrefix(`/user/alice/`)";
             AddRoute Example.alice "http://10.0.0.6:8888" "meta2"
               (Example.keys "alice") "PathPrefix(`/user/alice/`)";
             DeleteRoute Example.bob (Example.keys "bob") ]).2
        !! Example.alice).
Proof.
  apply (get_target_follows_history Example.proxy).
  repeat constructor.
Defined.
